(** * Global Health Explorer dashboard: the data-shaping logic

    A shallow embedding of [global_health_dashboard.py]: the loading of
    [dashboard_data.json], the assembly of the country table, the cluster
    filter, the highlight of the selected country, the cluster profile cards
    and the country detail metrics, followed by the properties proved about
    them.

    The script is one top-level program.  Each block of it is a definition
    below, named after the variable or the section of the script it computes,
    and [dashboard] runs the blocks in the order of the script. *)

From Stdlib Require Import ZArith NArith List String Ascii Bool Lia DecimalString.
From Stdlib Require DecimalPos.
Import ListNotations.
Local Open Scope string_scope.

(** ** Python values and builtins *)

Module Py.

(** The exceptions the script can meet. *)
Inductive exn : Type :=
| FileNotFoundError (path : string)
| KeyError (key : string)
| IndexError
| ValueError (msg : string)
| StreamlitAPIException.

Inductive result (A : Type) : Type :=
| Ok (a : A)
| Raise (e : exn).
Arguments Ok {A} a.
Arguments Raise {A} e.

Definition bind {A B : Type} (r : result A) (k : A -> result B) : result B :=
  match r with
  | Ok a => k a
  | Raise e => Raise e
  end.

Declare Scope py_scope.
Delimit Scope py_scope with py.
Notation "x <- r ;; k" := (bind r (fun x => k))
  (at level 61, r at next level, right associativity) : py_scope.

(** [[f(x) for x in l]], stopping at the first exception. *)
Fixpoint for_each {A B : Type} (f : A -> result B) (l : list A) : result (list B) :=
  match l with
  | [] => Ok []
  | a :: l' =>
      bind (f a) (fun b => bind (for_each f l') (fun bs => Ok (b :: bs)))
  end.

(** *** dict with string keys, in insertion order *)

Definition dict (V : Type) : Type := list (string * V).

(** [d.get(k)] *)
Fixpoint get {V : Type} (d : dict V) (k : string) : option V :=
  match d with
  | [] => None
  | (k', v) :: d' => if String.eqb k' k then Some v else get d' k
  end.

(** [d.get(k, default)] *)
Definition get_default {V : Type} (d : dict V) (k : string) (default : V) : V :=
  match get d k with
  | Some v => v
  | None => default
  end.

(** [d[k]] *)
Definition getitem {V : Type} (d : dict V) (k : string) : result V :=
  match get d k with
  | Some v => Ok v
  | None => Raise (KeyError k)
  end.

Definition keys {V : Type} (d : dict V) : list string := map fst d.

(** *** dict with int keys *)

Definition idict (V : Type) : Type := list (Z * V).

Fixpoint iget {V : Type} (d : idict V) (k : Z) : option V :=
  match d with
  | [] => None
  | (k', v) :: d' => if Z.eqb k' k then Some v else iget d' k
  end.

Definition iget_default {V : Type} (d : idict V) (k : Z) (default : V) : V :=
  match iget d k with
  | Some v => v
  | None => default
  end.

(** [d[k] = v]: an existing key keeps its place, a new one goes last. *)
Fixpoint iset {V : Type} (d : idict V) (k : Z) (v : V) : idict V :=
  match d with
  | [] => [(k, v)]
  | (k', v') :: d' => if Z.eqb k' k then (k', v) :: d' else (k', v') :: iset d' k v
  end.

(** *** str and int *)

(** [str(z)] for an int. *)
Definition str (z : Z) : string := NilZero.string_of_int (Z.to_int z).

(** The white space that [int()] skips around a literal of ASCII text:
    tab, line feed, vertical tab, form feed, carriage return and the space
    (the codes 9 to 13, and 32).  The separators 28 to 31 are white space
    for [str.isspace()] but not here: [int('\x1c5')] raises. *)
Definition is_space (c : ascii) : bool :=
  let n := nat_of_ascii c in
  ((9 <=? n) && (n <=? 13) || (n =? 32))%nat.

Fixpoint lstrip (s : string) : string :=
  match s with
  | String c t => if is_space c then lstrip t else s
  | EmptyString => EmptyString
  end.

Definition reverse (s : string) : string :=
  string_of_list_ascii (rev (list_ascii_of_string s)).

Definition strip (s : string) : string :=
  reverse (lstrip (reverse (lstrip s))).

Definition digit_val (c : ascii) : option Z :=
  let n := nat_of_ascii c in
  if ((48 <=? n) && (n <=? 57))%nat then Some (Z.of_nat (n - 48)) else None.

(** Decimal digits, a single underscore allowed between two digits. *)
Fixpoint digits_value (acc : Z) (after_digit : bool) (s : string) : option Z :=
  match s with
  | EmptyString => if after_digit then Some acc else None
  | String c t =>
      match digit_val c with
      | Some d => digits_value (10 * acc + d) true t
      | None =>
          if Ascii.eqb c "_" && after_digit then digits_value acc false t else None
      end
  end.

(** [int(s)] in base 10 for ASCII text: surrounding white space, one
    optional sign, digits with single underscores between them.  The
    message of CPython goes on with the literal.  A literal with other
    characters (the digits and the white space of Unicode that [int()]
    also reads) is not ASCII text and is not read here; what is proved from
    a rejection is stated for ASCII keys. *)
Definition int (s : string) : result Z :=
  let body :=
    match strip s with
    | String "+" t => digits_value 0 false t
    | String "-" t => option_map Z.opp (digits_value 0 false t)
    | t => digits_value 0 false t
    end in
  match body with
  | Some z => Ok z
  | None => Raise (ValueError "invalid literal for int() with base 10")
  end.

(** [sub in s] for strings. *)
Fixpoint contains (sub s : string) : bool :=
  String.prefix sub s ||
  match s with
  | EmptyString => false
  | String _ t => contains sub t
  end.

(** [l.index(x)]: the position of the first occurrence. *)
Fixpoint index (l : list string) (x : string) : result nat :=
  match l with
  | [] => Raise (ValueError "is not in list")
  | y :: l' => if String.eqb y x then Ok O else bind (index l' x) (fun i => Ok (S i))
  end.

(** [sorted(l)] for strings. *)
Fixpoint insert (x : string) (l : list string) : list string :=
  match l with
  | [] => [x]
  | y :: l' => if String.leb x y then x :: l else y :: insert x l'
  end.

Definition sorted (l : list string) : list string := fold_right insert [] l.

(** [l[i]] for [i >= 0]. *)
Definition item {A : Type} (l : list A) (i : nat) : result A :=
  match nth_error l i with
  | Some a => Ok a
  | None => Raise IndexError
  end.

(** [range(n)] *)
Definition range (n : nat) : list Z := map Z.of_nat (seq 0 n).

(** [sum(1 for c in l if c == k)] *)
Fixpoint count_eq (l : list Z) (k : Z) : nat :=
  match l with
  | [] => O
  | c :: l' => ((if Z.eqb c k then 1 else 0) + count_eq l' k)%nat
  end.

(** *** float and the [f] presentation type *)

(** A finite number, held exactly: [(-1)^fneg * fman * 2^fexp]. *)
Record finite : Type := { fneg : bool; fman : N; fexp : Z }.

(** A Python float: a finite number, an infinity or NaN.  [json.load]
    gives all three kinds: it reads [NaN], [Infinity] and [-Infinity], and a
    literal beyond the range of a double, such as [1e999], as an
    infinity. *)
Inductive float : Type :=
| Finite (x : finite)
| Infinity (negative : bool)
| NaN.

(** [num / den] rounded to the nearest integer, ties to the even one. *)
Definition round_half_even (num den : N) : N :=
  let q := (num / den)%N in
  let r := (num mod den)%N in
  match (2 * r ?= den)%N with
  | Lt => q
  | Gt => (q + 1)%N
  | Eq => if N.even q then q else (q + 1)%N
  end.

(** [|x| * 10^k], correctly rounded to an integer. *)
Definition scaled (k : nat) (x : finite) : N :=
  round_half_even
    (fman x * 2 ^ Z.to_N (fexp x) * 10 ^ N.of_nat k)
    (2 ^ Z.to_N (- fexp x)).

Definition digit (d : N) : ascii := ascii_of_N (48 + d).

(** The last [k] decimal digits of [n]. *)
Fixpoint frac_digits (k : nat) (n : N) : string :=
  match k with
  | O => EmptyString
  | S k' => frac_digits k' (n / 10) ++ String (digit (n mod 10)) EmptyString
  end.

Definition int_digits (n : N) : string := NilZero.string_of_uint (N.to_uint n).

(** The [,] option: a comma before every group of three digits, counted
    from the right. *)
Fixpoint commas (l : list ascii) : list ascii :=
  match l with
  | a :: b :: c :: ((_ :: _) as rest) => a :: b :: c :: ","%char :: commas rest
  | _ => l
  end.

Definition group_thousands (s : string) : string :=
  string_of_list_ascii (rev (commas (rev (list_ascii_of_string s)))).

(** [format(x, ".kf")], and [format(x, ",.kf")] when [grouping].  An
    infinity prints as [inf] or [-inf] and NaN as [nan], whatever the
    precision and the grouping. *)
Definition format_f (k : nat) (grouping : bool) (x : float) : string :=
  match x with
  | Finite x =>
      let n := scaled k x in
      let whole := int_digits (n / 10 ^ N.of_nat k) in
      (if fneg x then "-" else "")
      ++ (if grouping then group_thousands whole else whole)
      ++ match k with
         | O => ""
         | S _ => "." ++ frac_digits k n
         end
  | Infinity negative => (if negative then "-" else "") ++ "inf"
  | NaN => "nan"
  end.

End Py.

(** ** The part of pandas the script uses *)

Module Pandas.
Import Py.

(** A cell of a column. *)
Inductive cell : Type :=
| CStr (s : string)
| CInt (z : Z)
| CFloat (v : float).

(** A missing value is stored as NaN, the float. *)
Definition CNaN : cell := CFloat NaN.

Definition column : Type := (string * list cell)%type.

(** Columns in their order, all over the same index [0 .. nrows-1]. *)
Record DataFrame : Type := { nrows : nat; columns : list column }.

(** [pd.DataFrame({name: list, ...})] *)
Definition from_dict (cols : list column) : result DataFrame :=
  match cols with
  | [] => Ok {| nrows := 0; columns := [] |}
  | (_, first) :: _ =>
      if forallb (fun c => List.length (snd c) =? List.length first)%nat cols
      then Ok {| nrows := List.length first; columns := cols |}
      else Raise (ValueError "All arrays must be of the same length")
  end.

(** A column that exists is replaced where it stands, a new one is
    appended. *)
Fixpoint set_column (cols : list column) (name : string) (vals : list cell)
  : list column :=
  match cols with
  | [] => [(name, vals)]
  | (k, old) :: cols' =>
      if String.eqb k name then (k, vals) :: cols'
      else (k, old) :: set_column cols' name vals
  end.

(** [df[name] = vals] for a list.  A frame that has no row yet takes its
    index from a non-empty list, and the columns it already has are filled
    with NaN over that index. *)
Definition setitem (df : DataFrame) (name : string) (vals : list cell)
  : result DataFrame :=
  if ((nrows df =? 0) && negb (List.length vals =? 0))%nat then
    let blank := map (fun c : column => (fst c, repeat CNaN (List.length vals))) (columns df) in
    Ok {| nrows := List.length vals; columns := set_column blank name vals |}
  else if (List.length vals =? nrows df)%nat then
    Ok {| nrows := nrows df; columns := set_column (columns df) name vals |}
  else Raise (ValueError ("Length of values (" ++ str (Z.of_nat (List.length vals))
                          ++ ") does not match length of index ("
                          ++ str (Z.of_nat (nrows df)) ++ ")")).

(** [df[name]] *)
Definition getcol (df : DataFrame) (name : string) : result (list cell) :=
  getitem (columns df) name.

(** [v == z] between a float and an int, on the exact values; an infinity
    and NaN equal no int. *)
Definition float_eq_int (v : float) (z : Z) : bool :=
  match v with
  | Finite x =>
      let m := if fneg x then (- Z.of_N (fman x))%Z else Z.of_N (fman x) in
      (m * 2 ^ Z.max (fexp x) 0 =? z * 2 ^ Z.max (- fexp x) 0)%Z
  | Infinity _ | NaN => false
  end.

Definition cell_in (values : list Z) (c : cell) : bool :=
  match c with
  | CInt z => existsb (Z.eqb z) values
  | CFloat v => existsb (float_eq_int v) values
  | CStr _ => false
  end.

(** [col.isin(values)] *)
Definition isin (col : list cell) (values : list Z) : list bool :=
  map (cell_in values) col.

(** [col == s] for a string [s] *)
Definition eq_str (col : list cell) (s : string) : list bool :=
  map (fun c => match c with CStr s' => String.eqb s' s | _ => false end) col.

(** The entries of [col] where the mask is true. *)
Fixpoint keep {A : Type} (mask : list bool) (col : list A) : list A :=
  match mask, col with
  | b :: mask', c :: col' => if b then c :: keep mask' col' else keep mask' col'
  | _, _ => []
  end.

(** [df[mask]] for a boolean mask over the index of [df]. *)
Definition select (df : DataFrame) (mask : list bool) : DataFrame :=
  {| nrows := List.length (keep mask (seq 0 (nrows df)));
     columns := map (fun c : column => (fst c, keep mask (snd c))) (columns df) |}.

(** *** Rows *)

Definition Row : Type := dict cell.

Definition heads (cols : list column) : Row :=
  map (fun c : column => (fst c, hd CNaN (snd c))) cols.

Definition tails (cols : list column) : list column :=
  map (fun c : column => (fst c, tl (snd c))) cols.

Fixpoint rows_of (n : nat) (cols : list column) : list Row :=
  match n with
  | O => []
  | S n' => heads cols :: rows_of n' (tails cols)
  end.

(** The rows of the frame, in index order. *)
Definition rows (df : DataFrame) : list Row := rows_of (nrows df) (columns df).

(** Every column spans the index. *)
Definition well_formed (df : DataFrame) : bool :=
  forallb (fun c : column => (List.length (snd c) =? nrows df)%nat) (columns df).

End Pandas.

(** ** The part of plotly the script uses *)

Module Plotly.
Import Py Pandas.
Local Open Scope py_scope.

(** [go.Scatter(x=..., y=..., text=...)]; the marker styling is fixed. *)
Record Scatter : Type :=
  { sc_x : list cell; sc_y : list cell; sc_text : list string }.

(** An axis title: its text and, for PCA, the share of variance. *)
Record AxisTitle : Type := { title_text : string; title_percent : option float }.

(** A figure of [px.scatter]: the frame and the columns it draws, then the
    traces added to it, then its axis titles. *)
Record Figure : Type :=
  { data_frame : DataFrame;
    fig_x : string;
    fig_y : string;
    fig_color : string;
    fig_hover_name : string;
    added_traces : list Scatter;
    axis_titles : option (AxisTitle * AxisTitle) }.

Definition has_column (df : DataFrame) (name : string) : bool :=
  match get (columns df) name with
  | Some _ => true
  | None => false
  end.

(** [px.scatter(df, x=, y=, color=, hover_name=)]: every argument names a
    column of the frame. *)
Definition scatter (df : DataFrame) (x y color hover_name : string) : result Figure :=
  if forallb (has_column df) [x; y; color; hover_name] then
    Ok {| data_frame := df; fig_x := x; fig_y := y; fig_color := color;
          fig_hover_name := hover_name; added_traces := []; axis_titles := None |}
  else Raise (ValueError "not the name of a column in data_frame").

(** [fig.add_trace(t)] *)
Definition add_trace (fig : Figure) (t : Scatter) : Figure :=
  {| data_frame := data_frame fig; fig_x := fig_x fig; fig_y := fig_y fig;
     fig_color := fig_color fig; fig_hover_name := fig_hover_name fig;
     added_traces := (added_traces fig ++ [t])%list; axis_titles := axis_titles fig |}.

(** [fig.update_layout(xaxis=dict(title=...), yaxis=dict(title=...))] *)
Definition update_layout (fig : Figure) (xt yt : AxisTitle) : Figure :=
  {| data_frame := data_frame fig; fig_x := fig_x fig; fig_y := fig_y fig;
     fig_color := fig_color fig; fig_hover_name := fig_hover_name fig;
     added_traces := added_traces fig; axis_titles := Some (xt, yt) |}.

End Plotly.

(** ** The part of streamlit the script uses *)

Module Streamlit.
Import Py Plotly.

(** The HTML fragments of the script, with the values it inserts. *)
Inductive template : Type :=
| css
| sidebar_info (countries : nat) (methods : list string)
| main_header
| sub_header (countries : nat)
| card_open (cid : Z) (name : string) (count : nat)
| card_line (ind_name color display : string)
| card_close
| footer.

(** What the page shows, call by call. *)
Inductive event : Type :=
| st_set_page_config
| st_markdown (body : string)
| st_html (t : template)
| st_error (body : string)
| st_code (body : string)
| st_radio (label : string) (options : list string)
| st_selectbox (label : string) (options : list string)
| st_checkbox (label key : string)
| st_metric (col : nat) (label value : string)
| st_plotly_chart (fig : Figure)
| st_caption (body : string).

(** What the user has picked in the widgets of the page. *)
Record Session : Type :=
  { picked_method : string;
    picked_color : string;
    picked_country : string;
    checked : string -> bool }.

(** A run of the script ends, is halted by [st.stop()], or dies on an
    exception. *)
Inductive outcome (A : Type) : Type :=
| Done (a : A)
| Stopped
| Failed (e : exn).
Arguments Done {A} a.
Arguments Stopped {A}.
Arguments Failed {A} e.

(** A piece of the script: it reads the session and yields what it showed
    and how it ended. *)
Definition App (A : Type) : Type := Session -> list event * outcome A.

Definition ret {A : Type} (a : A) : App A := fun _ => ([], Done a).

Definition bind {A B : Type} (m : App A) (k : A -> App B) : App B :=
  fun s =>
    match m s with
    | (shown, Done a) => let (shown', o) := k a s in ((shown ++ shown')%list, o)
    | (shown, Stopped) => (shown, Stopped)
    | (shown, Failed e) => (shown, Failed e)
    end.

Declare Scope app_scope.
Delimit Scope app_scope with app.
Notation "x <- m ;; k" := (bind m (fun x => k))
  (at level 61, m at next level, right associativity) : app_scope.
Notation "m ;; k" := (bind m (fun _ => k))
  (at level 61, right associativity) : app_scope.

Definition say (e : event) : App unit := fun _ => ([e], Done tt).

Definition lift {A : Type} (r : result A) : App A :=
  fun _ =>
    match r with
    | Ok a => ([], Done a)
    | Raise e => ([], Failed e)
    end.

(** [st.stop()] *)
Definition stop {A : Type} : App A := fun _ => ([], Stopped).

(** The value of a choice widget: the user's pick when it is one of the
    options, the first option otherwise, [None] without options. *)
Definition choose (options : list string) (picked : string) : option string :=
  if existsb (String.eqb picked) options then Some picked else hd_error options.

Definition radio (label : string) (options : list string) : App (option string) :=
  fun s => ([st_radio label options], Done (choose options (picked_method s))).

(** A select box over [first :: rest] always has a value. *)
Definition selectbox (label : string) (first : string) (rest : list string)
           (picked : Session -> string) : App string :=
  fun s =>
    ([st_selectbox label (first :: rest)],
     Done (if existsb (String.eqb (picked s)) (first :: rest) then picked s else first)).

Definition checkbox (label key : string) : App bool :=
  fun s => ([st_checkbox label key], Done (checked s key)).

(** [f"{v}"] for what [st.radio] returned. *)
Definition fstring (v : option string) : string :=
  match v with
  | Some s => s
  | None => "None"
  end.

End Streamlit.

(** ** The script *)

Module Dashboard.
Import Py Pandas Plotly Streamlit.

(** *** dashboard_data.json *)

(** One projection: the keys [x] and [y]. *)
Record Embedding : Type := { emb_x : list float; emb_y : list float }.

(** The parsed document, with the types the script reads it with: names
    are strings, cluster ids are ints, coordinates are numbers, and an
    indicator value or a cluster average is a number or a JSON [null]
    ([None]).  A number is held as a Python float, NaN and the infinities
    included; an integer literal of the file stands for the float of its
    value, which is what pandas and the [f] presentation type make of an
    int within the range of a double (beyond it there is no such float,
    and no value of this type).  A key of the top level may be absent. *)
Record Document : Type :=
  { countries : option (list string);
    clusters : option (list Z);
    cluster_labels : option (dict string);
    embeddings : option (dict Embedding);
    indicators : option (dict (list (option float)));
    variance_explained : option (dict float);
    cluster_averages : option (dict (dict (option float))) }.

(** The files found by each successive [open], the first one at [0]. *)
Definition FileSystem : Type := nat -> string -> option Document.

(** [data[key]] for a key of the top level. *)
Definition required {A : Type} (key : string) (field : option A) : result A :=
  match field with
  | Some a => Ok a
  | None => Raise (KeyError key)
  end.

(** [data.get(key, {})] *)
Definition or_empty {V : Type} (field : option (dict V)) : dict V :=
  match field with
  | Some d => d
  | None => []
  end.

Definition cluster_colors : idict string :=
  [(0%Z, "#E63946"); (1%Z, "#2A9D8F"); (2%Z, "#E9C46A"); (3%Z, "#6A4C93")].

Section Tables.
Local Open Scope py_scope.

(** [[data['cluster_labels'][str(c)] for c in data['clusters']]] *)
Definition cluster_names (data : Document) : result (list string) :=
  cl <- required "clusters" (clusters data) ;;
  for_each
    (fun c => lb <- required "cluster_labels" (cluster_labels data) ;;
              getitem lb (str c))
    cl.

(** [pd.DataFrame({'Country': ..., 'Cluster': ..., 'Cluster_Name': ...})] *)
Definition new_frame (data : Document) : result DataFrame :=
  co <- required "countries" (countries data) ;;
  cl <- required "clusters" (clusters data) ;;
  names <- cluster_names data ;;
  from_dict [("Country", map CStr co);
             ("Cluster", map CInt cl);
             ("Cluster_Name", map CStr names)].

(** [for method in data['embeddings']: df[f'{method}_x'] = ...] *)
Fixpoint add_embeddings (em : dict Embedding) (methods : list string)
         (t : DataFrame) : result DataFrame :=
  match methods with
  | [] => Ok t
  | method :: rest =>
      e <- getitem em method ;;
      t1 <- setitem t (method ++ "_x") (map CFloat (emb_x e)) ;;
      e' <- getitem em method ;;
      t2 <- setitem t1 (method ++ "_y") (map CFloat (emb_y e')) ;;
      add_embeddings em rest t2
  end.

Definition number_cell (v : option float) : cell :=
  match v with
  | Some f => CFloat f
  | None => CNaN
  end.

(** [for indicator, values in data.get('indicators', {}).items()] *)
Fixpoint add_indicators (items : dict (list (option float))) (t : DataFrame)
  : result DataFrame :=
  match items with
  | [] => Ok t
  | (indicator, values) :: rest =>
      t1 <- setitem t indicator (map number_cell values) ;;
      add_indicators rest t1
  end.

(** The table [df], one row per country ([build_rows]). *)
Definition df (data : Document) : result DataFrame :=
  t0 <- new_frame data ;;
  em <- required "embeddings" (embeddings data) ;;
  t1 <- add_embeddings em (keys em) t0 ;;
  add_indicators (or_empty (indicators data)) t1.

(** [[c for c, show in show_clusters.items() if show]] *)
Definition visible (show_clusters : idict bool) : list Z :=
  map fst (filter snd show_clusters).

(** [mask = df['Cluster'].isin(...)] *)
Definition mask (t : DataFrame) (shown : list Z) : result (list bool) :=
  col <- getcol t "Cluster" ;;
  Ok (isin col shown).

(** [df_filtered = df[mask].copy()] ([filter_rows]) *)
Definition df_filtered (t : DataFrame) (shown : list Z) : result DataFrame :=
  m <- mask t shown ;;
  Ok (select t m).

(** The scatter plot of the chosen projection. *)
Definition projection (filtered : DataFrame) (x_col y_col color_by : string)
  : result Figure :=
  if String.eqb color_by "Cluster"
  then scatter filtered x_col y_col "Cluster_Name" "Country"
  else scatter filtered x_col y_col color_by "Country".

(** The marker of the selected country, looked up in [df]. *)
Definition highlight (t : DataFrame) (selected_country x_col y_col : string)
           (fig : Figure) : result Figure :=
  if negb (String.eqb selected_country "") then
    country <- getcol t "Country" ;;
    let cd := select t (eq_str country selected_country) in
    if (0 <? nrows cd)%nat then
      cx <- getcol cd x_col ;;
      cy <- getcol cd y_col ;;
      Ok (add_trace fig {| sc_x := cx; sc_y := cy; sc_text := [selected_country] |})
    else Ok fig
  else Ok fig.

(** The axis labels, with the variance explained for PCA. *)
Definition axis_labels (data : Document) (method : option string)
  : result (AxisTitle * AxisTitle) :=
  let x_label := fstring method ++ " Dim 1" in
  let y_label := fstring method ++ " Dim 2" in
  match method, variance_explained data with
  | Some m, Some ve =>
      if String.eqb m "PCA" then
        pc1 <- getitem ve "PC1" ;;
        pc2 <- getitem ve "PC2" ;;
        Ok ({| title_text := x_label; title_percent := Some pc1 |},
            {| title_text := y_label; title_percent := Some pc2 |})
      else Ok ({| title_text := x_label; title_percent := None |},
               {| title_text := y_label; title_percent := None |})
  | _, _ => Ok ({| title_text := x_label; title_percent := None |},
                {| title_text := y_label; title_percent := None |})
  end.

(** What a cluster card tells ([cluster_summary]). *)
Record Summary : Type :=
  { name : string; count : nat; color : string; avg_data : dict (option float) }.

(** [cluster_colors[cid]] *)
Definition cluster_color (cid : Z) : result string :=
  match iget cluster_colors cid with
  | Some c => Ok c
  | None => Raise (KeyError (str cid))
  end.

(** The four assignments of the loop body, in their order: the name, the
    count, the colour and the averages.  The first three can fail: the id
    has no label, the document has no [clusters], the id has no colour. *)
Definition cluster_summary (data : Document) (cid : Z) : result Summary :=
  lb <- required "cluster_labels" (cluster_labels data) ;;
  name <- getitem lb (str cid) ;;
  cl <- required "clusters" (clusters data) ;;
  color <- cluster_color cid ;;
  Ok {| name := name;
        count := count_eq cl cid;
        color := color;
        avg_data := get_default (or_empty (cluster_averages data)) (str cid) [] |}.

(** A number as the page prints it: one formatting rule, written out at
    both places that print an indicator. *)
Definition display (ind_name : string) (v : float) : string :=
  if contains "GDP" ind_name
  then "$" ++ format_f 0 true v
  else format_f 1 false v.

(** The value of a country metric. *)
Definition metric_value (ind_name : string) (val : option float) : string :=
  match val with
  | Some v => display ind_name v
  | None => "N/A"
  end.

Definition descriptions : dict string :=
  [("PCA", "Linear, global variance");
   ("t-SNE", "Non-linear, local focus");
   ("UMAP", "Local & global balance");
   ("Isomap", "Geodesic distances");
   ("LLE", "Local reconstruction")].

End Tables.

Section Page.
Local Open Scope app_scope.

(** [for a in l: body(a)] *)
Fixpoint for_in {A : Type} (l : list A) (body : A -> App unit) : App unit :=
  match l with
  | [] => ret tt
  | a :: l' => body a ;; for_in l' body
  end.

Definition not_found_message : string :=
  "❌ `dashboard_data.json` not found. Please run the export script in your notebook first.".

Definition export_hint : string :=
  "
# Add this to your notebook after dimensionality reduction:
# See export_dashboard_data.py for the full code
        ".

(** [json.load(open(path))]: the file is looked for once. *)
Definition open_json (fs : FileSystem) (path : string) : result Document :=
  match fs O path with
  | Some data => Ok data
  | None => Raise (FileNotFoundError path)
  end.

(** [load_data()]: the document, or the error box and the end of the run
    when the file is not there; any other exception goes through. *)
Definition load_data (fs : FileSystem) : App Document :=
  match open_json fs "dashboard_data.json" with
  | Ok data => ret data
  | Raise (FileNotFoundError _) =>
      say (st_error not_found_message) ;;
      say (st_code export_hint) ;;
      stop
  | Raise e => lift (Raise e)
  end.

(** [{int(i): st.checkbox(name, value=True, key=f"c{i}") for i, name in ...}] *)
Fixpoint show_clusters (labels : dict string) (acc : idict bool) : App (idict bool) :=
  match labels with
  | [] => ret acc
  | (i, name) :: rest =>
      k <- lift (int i) ;;
      b <- checkbox name ("c" ++ i) ;;
      show_clusters rest (iset acc k b)
  end.

(** What the side bar hands to the page. *)
Record Controls : Type :=
  { methods : list string;
    method : option string;
    color_by : string;
    selected_country : string;
    shown : idict bool }.

Definition sidebar (data : Document) : App Controls :=
  say (st_markdown "## 🎛️ Controls") ;;
  em <- lift (required "embeddings" (embeddings data)) ;;
  method <- radio "**Projection Method**" (keys em) ;;
  say (st_markdown "---") ;;
  color_by <- selectbox "**Color By**" "Cluster" (keys (or_empty (indicators data)))
                        picked_color ;;
  say (st_markdown "---") ;;
  co <- lift (required "countries" (countries data)) ;;
  selected_country <- selectbox "**🔍 Find Country**" "" (sorted co) picked_country ;;
  say (st_markdown "---") ;;
  say (st_markdown "**Filter Clusters**") ;;
  lb <- lift (required "cluster_labels" (cluster_labels data)) ;;
  show <- show_clusters lb [] ;;
  say (st_markdown "---") ;;
  co' <- lift (required "countries" (countries data)) ;;
  say (st_html (sidebar_info (List.length co') (keys em))) ;;
  ret {| methods := keys em; method := method; color_by := color_by;
         selected_country := selected_country; shown := show |}.

(** The lines of a card: one per average that is not [None]. *)
Fixpoint card_lines (color : string) (avg_data : dict (option float)) : App unit :=
  match avg_data with
  | [] => ret tt
  | (ind_name, ind_val) :: rest =>
      match ind_val with
      | Some v => say (st_html (card_line ind_name color (display ind_name v)))
      | None => ret tt
      end ;;
      card_lines color rest
  end.

(** The body of the loop over the cluster ids. *)
Definition cluster_card (data : Document) (show : idict bool) (cid : Z) : App unit :=
  if iget_default show cid true then
    sm <- lift (cluster_summary data cid) ;;
    say (st_html (card_open cid (name sm) (count sm))) ;;
    card_lines (color sm) (avg_data sm) ;;
    say (st_html card_close)
  else ret tt.

Definition cluster_profiles (data : Document) (show : idict bool) : App unit :=
  say (st_markdown "### Cluster Profiles") ;;
  for_in (range 4) (cluster_card data show).

(** The indicator metrics: [i] is the next free column of the three. *)
Fixpoint detail_metrics (idx i : nat) (items : dict (list (option float))) : App unit :=
  match items with
  | [] => ret tt
  | (ind_name, ind_values) :: rest =>
      if (i <? 3)%nat then
        val <- lift (item ind_values idx) ;;
        say (st_metric i ind_name (metric_value ind_name val)) ;;
        detail_metrics idx (S i) rest
      else detail_metrics idx i rest
  end.

(** The detail of the selected country ([country_detail]). *)
Definition country_detail (data : Document) (selected_country : string) : App unit :=
  co <- lift (required "countries" (countries data)) ;;
  idx <- lift (index co selected_country) ;;
  cl <- lift (required "clusters" (clusters data)) ;;
  cid <- lift (item cl idx) ;;
  lb <- lift (required "cluster_labels" (cluster_labels data)) ;;
  label <- lift (getitem lb (str cid)) ;;
  say (st_metric 0 "Cluster" label) ;;
  detail_metrics idx 1 (or_empty (indicators data)).

Definition method_comparison (filtered : DataFrame) (methods : list string) : App unit :=
  say (st_markdown "---") ;;
  say (st_markdown "### 🔬 Method Comparison") ;;
  match methods with
  | [] => lift (Raise StreamlitAPIException)
  | _ =>
      for_in methods
        (fun m =>
           fig_small <- lift (scatter filtered (m ++ "_x") (m ++ "_y") "Cluster" "Country") ;;
           say (st_plotly_chart fig_small) ;;
           say (st_caption (get_default descriptions m "")))
  end.

(** The whole script, top to bottom. *)
Definition dashboard (fs : FileSystem) : App unit :=
  say st_set_page_config ;;
  say (st_html css) ;;
  data <- load_data fs ;;
  t <- lift (df data) ;;
  c <- sidebar data ;;
  say (st_html main_header) ;;
  co <- lift (required "countries" (countries data)) ;;
  say (st_html (sub_header (List.length co))) ;;
  filtered <- lift (df_filtered t (visible (shown c))) ;;
  say (st_markdown ("### " ++ fstring (method c) ++ " Projection")) ;;
  let x_col := fstring (method c) ++ "_x" in
  let y_col := fstring (method c) ++ "_y" in
  fig <- lift (projection filtered x_col y_col (color_by c)) ;;
  fig <- lift (highlight t (selected_country c) x_col y_col fig) ;;
  labels <- lift (axis_labels data (method c)) ;;
  say (st_plotly_chart (update_layout fig (fst labels) (snd labels))) ;;
  cluster_profiles data (shown c) ;;
  (if negb (String.eqb (selected_country c) "") then
     say (st_markdown "---") ;;
     say (st_markdown ("### 📍 " ++ selected_country c)) ;;
     country_detail data (selected_country c)
   else ret tt) ;;
  method_comparison filtered (methods c) ;;
  say (st_markdown "---") ;;
  say (st_html footer).

End Page.

End Dashboard.

(** ** The words of the specification *)

Module Spec.
Import Py Pandas Dashboard.

Definition same_length {A : Type} (n : nat) (l : list A) : bool :=
  (List.length l =? n)%nat.

(** The invariant of a Dataset: the required keys are there and every
    sequence that is indexed by country is as long as [countries]. *)
Definition valid_dataset (data : Document) : bool :=
  match countries data, clusters data, cluster_labels data, embeddings data with
  | Some co, Some cl, Some _, Some em =>
      let n := List.length co in
      same_length n cl
      && forallb (fun e : string * Embedding =>
                    same_length n (emb_x (snd e)) && same_length n (emb_y (snd e))) em
      && forallb (fun i : string * list (option float) => same_length n (snd i))
                 (or_empty (indicators data))
  | _, _, _, _ => false
  end.

(** Every cluster id in use has a display name. *)
Definition labelled (data : Document) : bool :=
  match clusters data, cluster_labels data with
  | Some cl, Some lb =>
      forallb (fun c => match get lb (str c) with Some _ => true | None => false end) cl
  | _, _ => false
  end.

(** No indicator is called like one of [names]. *)
Definition indicators_avoid (names : list string) (data : Document) : bool :=
  forallb (fun k => negb (existsb (String.eqb k) names))
          (keys (or_empty (indicators data))).

(** No two equal names. *)
Fixpoint unique (l : list string) : bool :=
  match l with
  | [] => true
  | a :: l' => negb (existsb (String.eqb a) l') && unique l'
  end.

(** The two defects of a document that the specification names. *)
Definition missing_countries (data : Document) : bool :=
  match countries data with
  | None => true
  | Some _ => false
  end.

Definition clusters_mismatch (data : Document) : bool :=
  match countries data, clusters data with
  | Some co, Some cl => negb (same_length (List.length co) cl)
  | _, _ => false
  end.

(** Some projection or some indicator of the document has a sequence that
    is not as long as [countries]. *)
Definition bad_projection (n : nat) (em : dict Embedding) (m : string) : bool :=
  match get em m with
  | Some e => negb (same_length n (emb_x e) && same_length n (emb_y e))
  | None => false
  end.

Definition misaligned (data : Document) : bool :=
  match countries data with
  | Some co =>
      existsb (bad_projection (List.length co) (or_empty (embeddings data)))
              (keys (or_empty (embeddings data)))
      || existsb (fun i : string * list (option float) =>
                    negb (same_length (List.length co) (snd i)))
                 (or_empty (indicators data))
  | None => false
  end.

(** The cell holds the country name. *)
Definition names_country (name : string) (c : cell) : bool :=
  match c with
  | CStr s => String.eqb s name
  | _ => false
  end.

(** The cells of [col] in the rows whose Country is [name]. *)
Definition cells_of_country (name : string) (country col : list cell) : list cell :=
  map snd (filter (fun p : cell * cell => names_country name (fst p))
                  (combine country col)).

(** The cluster id is one the cards are written for. *)
Definition in_card_range (c : Z) : bool := ((0 <=? c) && (c <? 4))%Z.

(** The same document with other raw indicator sequences. *)
Definition with_indicators (data : Document)
           (inds : option (dict (list (option float)))) : Document :=
  {| countries := countries data;
     clusters := clusters data;
     cluster_labels := cluster_labels data;
     embeddings := embeddings data;
     indicators := inds;
     variance_explained := variance_explained data;
     cluster_averages := cluster_averages data |}.











(** The figures on the page, in their order. *)
Definition charts (shown : list Streamlit.event) : list Plotly.Figure :=
  flat_map (fun ev => match ev with
                      | Streamlit.st_plotly_chart fig => [fig]
                      | _ => []
                      end) shown.

(** The cluster ids of the cards on the page, in their order. *)
Definition opened_cards (shown : list Streamlit.event) : list Z :=
  flat_map (fun ev => match ev with
                      | Streamlit.st_html (Streamlit.card_open cid _ _) => [cid]
                      | _ => []
                      end) shown.

(** The document names the clusters 0 to 3 and lists the cluster ids. *)
Definition names_four_clusters (data : Document) : bool :=
  match cluster_labels data, clusters data with
  | Some lb, Some _ =>
      forallb (fun cid => match get lb (str cid) with Some _ => true | None => false end)
              (range 4)
  | _, _ => false
  end.

(** The captions on the page, in their order. *)
Definition captions (shown : list Streamlit.event) : list string :=
  flat_map (fun ev => match ev with
                      | Streamlit.st_caption body => [body]
                      | _ => []
                      end) shown.

(** The small chart of a projection in the comparison of the methods. *)
Definition small_chart (filtered : DataFrame) (m : string) : Plotly.Figure :=
  {| Plotly.data_frame := filtered;
     Plotly.fig_x := m ++ "_x"; Plotly.fig_y := m ++ "_y";
     Plotly.fig_color := "Cluster"; Plotly.fig_hover_name := "Country";
     Plotly.added_traces := []; Plotly.axis_titles := None |}.

(** The axis titles without a share of variance. *)
Definition plain_titles (method : option string)
  : Plotly.AxisTitle * Plotly.AxisTitle :=
  ({| Plotly.title_text := Streamlit.fstring method ++ " Dim 1";
      Plotly.title_percent := None |},
   {| Plotly.title_text := Streamlit.fstring method ++ " Dim 2";
      Plotly.title_percent := None |}).


(** Text of ASCII characters only. *)
Definition is_ascii (s : string) : bool :=
  forallb (fun c => (nat_of_ascii c <? 128)%nat) (list_ascii_of_string s).

(** The key of a label reads as an int. *)
Definition reads_as_int (kv : string * string) : Prop :=
  exists z, int (fst kv) = Ok z.

(** The cell of a row, by column name. *)
Definition field (r : Row) (name : string) : option cell := get r name.

(** The row is of a cluster that is shown. *)
Definition row_shown (shown : list Z) (r : Row) : bool :=
  match field r "Cluster" with
  | Some c => cell_in shown c
  | None => false
  end.

End Spec.

(** ** Sample data *)

Module Sample.
Import Py Pandas Streamlit Dashboard.

(** The double nearest to 7.86 and the one nearest to 52000.4. *)
Definition d7_86 : finite := {| fneg := false; fman := 8849573267783025; fexp := -50 |}.
Definition d52000_4 : finite := {| fneg := false; fman := 7146880556125389; fexp := -37 |}.

Definition f7_86 : float := Finite d7_86.
Definition f52000_4 : float := Finite d52000_4.

(** [float(z)] for a small int. *)
Definition of_int (z : Z) : float :=
  Finite {| fneg := (z <? 0)%Z; fman := Z.abs_N z; fexp := 0 |}.

Definition four_labels : dict string :=
  [("0", "Developed Nations"); ("1", "Least Developed");
   ("2", "Emerging Economies"); ("3", "Developing Nations")].

Definition pca : Embedding :=
  {| emb_x := [of_int 1; of_int 2; of_int 3];
     emb_y := [of_int 4; of_int 5; of_int 6] |}.

(** The averages of a cluster: one number, one [null]. *)
Definition two_averages : dict (option float) :=
  [("GDP per capita", Some f52000_4); ("Life Expectancy", None)].

Definition three_countries : Document :=
  {| countries := Some ["Norway"; "Chad"; "Peru"];
     clusters := Some [0; 1; 2]%Z;
     cluster_labels := Some four_labels;
     embeddings := Some [("PCA", pca)];
     indicators :=
       Some [("GDP per capita", [Some f52000_4; None; Some (of_int 7000)]);
             ("Life Expectancy", [Some f7_86; Some (of_int 54); None]);
             ("Fertility", [Some (of_int 2); Some (of_int 6); Some (of_int 3)])];
     variance_explained := Some [("PC1", of_int 40); ("PC2", of_int 20)];
     cluster_averages := Some [("0", two_averages)] |}.

(** The same document without its [countries] key. *)
Definition no_countries : Document :=
  {| countries := None;
     clusters := clusters three_countries;
     cluster_labels := cluster_labels three_countries;
     embeddings := embeddings three_countries;
     indicators := indicators three_countries;
     variance_explained := variance_explained three_countries;
     cluster_averages := cluster_averages three_countries |}.

(** The same document with one cluster id less than countries. *)
Definition short_clusters : Document :=
  {| countries := countries three_countries;
     clusters := Some [0; 1]%Z;
     cluster_labels := cluster_labels three_countries;
     embeddings := embeddings three_countries;
     indicators := indicators three_countries;
     variance_explained := variance_explained three_countries;
     cluster_averages := cluster_averages three_countries |}.

(** A file system that always holds the given document. *)
Definition holding (data : Document) : FileSystem := fun _ _ => Some data.

(** A file system where the file turns up only after the first [open]. *)
Definition late_file (data : Document) : FileSystem :=
  fun n _ => match n with O => None | S _ => Some data end.

(** A valid document with an indicator called Country. *)
Definition indicator_called_country : Document :=
  {| countries := Some ["Norway"; "Chad"];
     clusters := Some [0; 1]%Z;
     cluster_labels := Some four_labels;
     embeddings := Some [("PCA", {| emb_x := [of_int 1; of_int 2];
                                    emb_y := [of_int 4; of_int 5] |})];
     indicators := Some [("Country", [Some f7_86; None])];
     variance_explained := None;
     cluster_averages := None |}.

(** A valid document with a cluster id that has no label. *)
Definition unnamed_cluster : Document :=
  {| countries := Some ["Norway"; "Chad"];
     clusters := Some [0; 7]%Z;
     cluster_labels := Some four_labels;
     embeddings := Some [("PCA", {| emb_x := [of_int 1; of_int 2];
                                    emb_y := [of_int 4; of_int 5] |})];
     indicators := None;
     variance_explained := None;
     cluster_averages := None |}.

(** Three countries, but a Life Expectancy for two of them only. *)
Definition short_indicator : Document :=
  {| countries := countries three_countries;
     clusters := clusters three_countries;
     cluster_labels := cluster_labels three_countries;
     embeddings := embeddings three_countries;
     indicators :=
       Some [("GDP per capita", [Some f52000_4; None; Some (of_int 7000)]);
             ("Life Expectancy", [Some f7_86; Some (of_int 54)])];
     variance_explained := None;
     cluster_averages := None |}.


(** Three clusters only, named 0 to 2. *)
Definition three_labels : Document :=
  {| countries := Some ["Norway"; "Chad"; "Peru"];
     clusters := Some [0; 1; 2]%Z;
     cluster_labels :=
       Some [("0", "Developed Nations"); ("1", "Least Developed");
             ("2", "Emerging Economies")];
     embeddings := Some [("PCA", pca)];
     indicators := None;
     variance_explained := None;
     cluster_averages := None |}.

(** A share of variance for the first component only. *)
Definition variance_without_pc2 : Document :=
  {| countries := countries three_countries;
     clusters := clusters three_countries;
     cluster_labels := cluster_labels three_countries;
     embeddings := embeddings three_countries;
     indicators := indicators three_countries;
     variance_explained := Some [("PC1", of_int 40)];
     cluster_averages := cluster_averages three_countries |}.

(** Two projections, one of them by a method the script has no words
    for. *)
Definition two_methods : Document :=
  {| countries := countries three_countries;
     clusters := clusters three_countries;
     cluster_labels := cluster_labels three_countries;
     embeddings := Some [("PCA", pca); ("MDS", pca)];
     indicators := None;
     variance_explained := None;
     cluster_averages := None |}.

(** Six clusters, all named and all in use. *)
Definition six_clusters : Document :=
  {| countries := Some ["a"; "b"; "c"; "d"; "e"; "f"];
     clusters := Some [0; 1; 2; 3; 4; 5]%Z;
     cluster_labels :=
       Some [("0", "zero"); ("1", "one"); ("2", "two");
             ("3", "three"); ("4", "four"); ("5", "five")];
     embeddings := Some [];
     indicators := None;
     variance_explained := None;
     cluster_averages := None |}.

(** A figure over an empty frame, to add a marker to. *)
Definition bare_figure : Plotly.Figure :=
  {| Plotly.data_frame := {| nrows := 0; columns := [] |};
     Plotly.fig_x := "PCA_x"; Plotly.fig_y := "PCA_y";
     Plotly.fig_color := "Cluster_Name"; Plotly.fig_hover_name := "Country";
     Plotly.added_traces := []; Plotly.axis_titles := None |}.

(** A table of three rows. *)
Definition small_table : DataFrame :=
  {| nrows := 3;
     columns := [("Country", [CStr "Norway"; CStr "Chad"; CStr "Peru"]);
                 ("Cluster", [CInt 0; CInt 1; CInt 0])] |}.

Definition everything_shown : Session :=
  {| picked_method := "PCA"; picked_color := "Cluster"; picked_country := "";
     checked := fun _ => true |}.

(** The table [df] of [indicator_called_country]. *)
Definition table_with_country_indicator : DataFrame :=
  {| nrows := 2;
     columns := [("Country", [CFloat f7_86; CNaN]);
                 ("Cluster", [CInt 0; CInt 1]);
                 ("Cluster_Name", [CStr "Developed Nations"; CStr "Least Developed"]);
                 ("PCA_x", [CFloat (of_int 1); CFloat (of_int 2)]);
                 ("PCA_y", [CFloat (of_int 4); CFloat (of_int 5)])] |}.

(** A table in which Norway has two rows. *)
Definition table_norway_twice : DataFrame :=
  {| nrows := 3;
     columns := [("Country", [CStr "Norway"; CStr "Chad"; CStr "Norway"]);
                 ("Cluster", [CInt 0; CInt 1; CInt 2]);
                 ("PCA_x", [CFloat (of_int 1); CFloat (of_int 2); CFloat (of_int 3)]);
                 ("PCA_y", [CFloat (of_int 4); CFloat (of_int 5); CFloat (of_int 6)])] |}.

(** The table [df] of [two_methods], and its rows of the clusters 0 and 2. *)
Definition table_two_methods : DataFrame :=
  {| nrows := 3;
     columns := [("Country", [CStr "Norway"; CStr "Chad"; CStr "Peru"]);
                 ("Cluster", [CInt 0; CInt 1; CInt 2]);
                 ("Cluster_Name", [CStr "Developed Nations"; CStr "Least Developed";
                                   CStr "Emerging Economies"]);
                 ("PCA_x", [CFloat (of_int 1); CFloat (of_int 2); CFloat (of_int 3)]);
                 ("PCA_y", [CFloat (of_int 4); CFloat (of_int 5); CFloat (of_int 6)]);
                 ("MDS_x", [CFloat (of_int 1); CFloat (of_int 2); CFloat (of_int 3)]);
                 ("MDS_y", [CFloat (of_int 4); CFloat (of_int 5); CFloat (of_int 6)])] |}.

Definition two_rows_two_methods : DataFrame :=
  {| nrows := 2;
     columns := [("Country", [CStr "Norway"; CStr "Peru"]);
                 ("Cluster", [CInt 0; CInt 2]);
                 ("Cluster_Name", [CStr "Developed Nations"; CStr "Emerging Economies"]);
                 ("PCA_x", [CFloat (of_int 1); CFloat (of_int 3)]);
                 ("PCA_y", [CFloat (of_int 4); CFloat (of_int 6)]);
                 ("MDS_x", [CFloat (of_int 1); CFloat (of_int 3)]);
                 ("MDS_y", [CFloat (of_int 4); CFloat (of_int 6)])] |}.

(** Only the box with the key [c 01 ] is checked. *)
Definition last_box_checked : Session :=
  {| picked_method := ""; picked_color := ""; picked_country := "";
     checked := fun key => String.eqb key "c 01 " |}.

(** Chad is selected and its cluster, 1, is switched off. *)
Definition chad_hidden : Session :=
  {| picked_method := "PCA"; picked_color := "Cluster"; picked_country := "Chad";
     checked := fun key => negb (String.eqb key "c1") |}.

(** What the side bar hands on for [three_countries] and [chad_hidden]. *)
Definition chad_controls : Controls :=
  {| methods := ["PCA"]; method := Some "PCA"; color_by := "Cluster";
     selected_country := "Chad";
     shown := [(0, true); (1, false); (2, true); (3, true)]%Z |}.

End Sample.

Import Py Pandas Plotly Streamlit Dashboard Spec.

(** * Properties *)

(** ** Loading *)

(** C9: when [dashboard_data.json] is absent at the one time the script opens
    it, the [open] fails with [FileNotFoundError]; [load_data] shows the
    error box that tells the user to run the export script again and stops
    the run: nothing else of the page is shown, and what the file system
    holds later plays no part. *)
Theorem load_data_absent_file_stops :
  forall (fs : FileSystem) (s : Session),
    fs O "dashboard_data.json" = None ->
    open_json fs "dashboard_data.json"
    = Raise (FileNotFoundError "dashboard_data.json")
    /\ load_data fs s = ([st_error not_found_message; st_code export_hint], Stopped)
    /\ dashboard fs s
       = ([st_set_page_config; st_html css;
           st_error not_found_message; st_code export_hint], Stopped).
Proof.
  intros fs s Habsent.
  unfold dashboard, load_data, open_json, Streamlit.bind.
  rewrite Habsent.
  repeat split; reflexivity.
Qed.

Lemma load_data_absent_file_stops_witness :
  open_json (Sample.late_file Sample.three_countries) "dashboard_data.json"
  = Raise (FileNotFoundError "dashboard_data.json")
  /\ load_data (Sample.late_file Sample.three_countries) Sample.everything_shown
     = ([st_error not_found_message; st_code export_hint], Stopped)
  /\ dashboard (Sample.late_file Sample.three_countries) Sample.everything_shown
     = ([st_set_page_config; st_html css;
         st_error not_found_message; st_code export_hint], Stopped).
Proof.
  apply (load_data_absent_file_stops
           (Sample.late_file Sample.three_countries) Sample.everything_shown).
  reflexivity.
Defined.

(** C3, as the claim has it, fails: [load_data] hands back a document that
    lacks [countries], and one whose [clusters] is shorter than [countries],
    without any exception. *)
Lemma load_data_accepts_malformed :
  load_data (Sample.holding Sample.no_countries) Sample.everything_shown
  = ([], Done Sample.no_countries)
  /\ load_data (Sample.holding Sample.short_clusters) Sample.everything_shown
     = ([], Done Sample.short_clusters).
Proof. split; reflexivity. Qed.

(** *** Helper lemmas on the builtins *)

Lemma for_each_length :
  forall (A B : Type) (f : A -> result B) (l : list A) (bs : list B),
    for_each f l = Ok bs -> List.length bs = List.length l.
Proof.
  intros A B f l; induction l as [|a l IH]; intros bs H; simpl in H.
  - inversion H; reflexivity.
  - destruct (f a) as [b|e]; simpl in H; [|discriminate].
    destruct (for_each f l) as [bs'|e]; simpl in H; [|discriminate].
    inversion H; subst; simpl; f_equal; apply IH; reflexivity.
Qed.

Lemma for_each_nth :
  forall (A B : Type) (f : A -> result B) (l : list A) (bs : list B) (i : nat) (a : A),
    for_each f l = Ok bs -> nth_error l i = Some a ->
    exists b, nth_error bs i = Some b /\ f a = Ok b.
Proof.
  intros A B f l; induction l as [|a0 l IH]; intros bs i a H Hi.
  - destruct i; discriminate.
  - simpl in H.
    destruct (f a0) as [b0|e] eqn:Hf; simpl in H; [|discriminate].
    destruct (for_each f l) as [bs'|e]; simpl in H; [|discriminate].
    inversion H; subst; clear H.
    destruct i as [|i]; simpl in *.
    + inversion Hi; subst; exists b0; split; [reflexivity|assumption].
    + apply (IH bs' i a eq_refl Hi).
Qed.

Lemma for_each_total :
  forall (A B : Type) (f : A -> result B) (l : list A),
    (forall a, In a l -> exists b, f a = Ok b) ->
    exists bs, for_each f l = Ok bs.
Proof.
  intros A B f l; induction l as [|a l IH]; intros H; simpl.
  - exists []; reflexivity.
  - destruct (H a (or_introl eq_refl)) as [b Hb]; rewrite Hb; simpl.
    destruct IH as [bs Hbs]; [intros a' Ha'; apply H; right; assumption|].
    rewrite Hbs; simpl; exists (b :: bs); reflexivity.
Qed.

Lemma labelled_cluster_names :
  forall data, labelled data = true -> exists names, cluster_names data = Ok names.
Proof.
  intros data H; unfold labelled in H; unfold cluster_names.
  destruct (clusters data) as [cl|]; [|discriminate].
  destruct (cluster_labels data) as [lb|]; [|discriminate].
  simpl. apply for_each_total; intros c Hc.
  rewrite forallb_forall in H; specialize (H c Hc).
  unfold getitem; simpl.
  destruct (get lb (str c)) as [v|]; [exists v; reflexivity|discriminate].
Qed.

Lemma cluster_names_length :
  forall data cl names,
    clusters data = Some cl -> cluster_names data = Ok names ->
    List.length names = List.length cl.
Proof.
  intros data cl names Hcl H; unfold cluster_names in H; rewrite Hcl in H; simpl in H.
  apply for_each_length in H; assumption.
Qed.

(** A run whose table cannot be built dies on the exception of [df] before
    any widget. *)
Lemma dashboard_dies_with_df :
  forall fs data s e,
    fs O "dashboard_data.json" = Some data -> df data = Raise e ->
    dashboard fs s = ([st_set_page_config; st_html css], Failed e).
Proof.
  intros fs data s e Hfile Hdf.
  unfold dashboard, load_data, open_json, Streamlit.bind, say, ret, lift.
  rewrite Hfile, Hdf; reflexivity.
Qed.

Lemma df_mismatch_raises :
  forall data, clusters_mismatch data = true ->
    exists e, df data = Raise e
      /\ (labelled data = true -> e = ValueError "All arrays must be of the same length").
Proof.
  intros data H; unfold clusters_mismatch in H.
  destruct (countries data) as [co|] eqn:Hco; [|discriminate].
  destruct (clusters data) as [cl|] eqn:Hcl; [|discriminate].
  unfold df, new_frame; rewrite Hco, Hcl; simpl.
  destruct (cluster_names data) as [names|e] eqn:Hn; simpl.
  - unfold same_length in H. rewrite !length_map, Nat.eqb_refl; simpl.
    apply negb_true_iff in H; rewrite H; simpl.
    eexists; split; [reflexivity|intros _; reflexivity].
  - exists e; split; [reflexivity|].
    intros Hl; apply labelled_cluster_names in Hl; destruct Hl as [names Hn'].
    rewrite Hn in Hn'; discriminate.
Qed.

(** C3, amended: [load_data] checks nothing.  It returns the document of the
    file as it is, also one without [countries] or with [clusters] of another
    length than [countries]; the defect comes out when the table is built,
    as [KeyError('countries')] for the missing key and, for the lengths, as
    the [ValueError] of the frame constructor when every cluster id has a
    label, and the run dies there before any widget is shown. *)
Theorem load_data_does_not_validate :
  forall (fs : FileSystem) (data : Document) (s : Session),
    fs O "dashboard_data.json" = Some data ->
    missing_countries data || clusters_mismatch data = true ->
    load_data fs s = ([], Done data)
    /\ exists e,
         df data = Raise e
         /\ dashboard fs s = ([st_set_page_config; st_html css], Failed e)
         /\ (missing_countries data = true -> e = KeyError "countries")
         /\ (clusters_mismatch data = true -> labelled data = true ->
             e = ValueError "All arrays must be of the same length").
Proof.
  intros fs data s Hfile Hbad; split.
  - unfold load_data, open_json; rewrite Hfile; reflexivity.
  - destruct (missing_countries data) eqn:Hmiss; simpl in Hbad.
    + exists (KeyError "countries").
      assert (Hdf : df data = Raise (KeyError "countries")).
      { unfold missing_countries in Hmiss; unfold df, new_frame.
        destruct (countries data); [discriminate|reflexivity]. }
      split; [exact Hdf|].
      split; [apply dashboard_dies_with_df with (data := data); assumption|].
      split; [reflexivity|].
      intros Hmm; unfold missing_countries in Hmiss; unfold clusters_mismatch in Hmm.
      destruct (countries data); discriminate.
    + destruct (df_mismatch_raises data Hbad) as [e [Hdf He]].
      exists e.
      split; [exact Hdf|].
      split; [apply dashboard_dies_with_df with (data := data); assumption|].
      split; [discriminate|].
      intros _; exact He.
Qed.

Lemma load_data_does_not_validate_witness :
  load_data (Sample.holding Sample.short_clusters) Sample.everything_shown
  = ([], Done Sample.short_clusters)
  /\ exists e,
       df Sample.short_clusters = Raise e
       /\ dashboard (Sample.holding Sample.short_clusters) Sample.everything_shown
          = ([st_set_page_config; st_html css], Failed e)
       /\ (missing_countries Sample.short_clusters = true -> e = KeyError "countries")
       /\ (clusters_mismatch Sample.short_clusters = true ->
           labelled Sample.short_clusters = true ->
           e = ValueError "All arrays must be of the same length").
Proof.
  apply (load_data_does_not_validate
           (Sample.holding Sample.short_clusters) Sample.short_clusters
           Sample.everything_shown); reflexivity.
Defined.

(** ** Cluster profiles *)

Lemma get_In :
  forall (V : Type) (d : dict V) (k : string) (v : V),
    get d k = Some v -> In (k, v) d.
Proof.
  intros V d; induction d as [|[k' v'] d IH]; intros k v H; simpl in H.
  - discriminate.
  - destruct (String.eqb_spec k' k) as [->|Hne].
    + inversion H; subst; left; reflexivity.
    + right; apply IH; assumption.
Qed.


(** *** Running a piece of the page *)

Lemma bind_say :
  forall (B : Type) (ev : event) (k : unit -> App B) (s : Session),
    Streamlit.bind (say ev) k s = (ev :: fst (k tt s), snd (k tt s)).
Proof. intros; unfold Streamlit.bind, say; destruct (k tt s); reflexivity. Qed.

Lemma bind_ret :
  forall (A B : Type) (a : A) (k : A -> App B) (s : Session),
    Streamlit.bind (ret a) k s = k a s.
Proof. intros; unfold Streamlit.bind, ret; destruct (k a s); reflexivity. Qed.

Lemma bind_lift_ok :
  forall (A B : Type) (a : A) (k : A -> App B) (s : Session),
    Streamlit.bind (lift (Ok a)) k s = k a s.
Proof. intros; unfold Streamlit.bind, lift; destruct (k a s); reflexivity. Qed.

Lemma bind_lift_raise :
  forall (A B : Type) (e : exn) (k : A -> App B) (s : Session),
    Streamlit.bind (lift (Raise e)) k s = ([], Failed e).
Proof. intros; reflexivity. Qed.

Lemma bind_done :
  forall (A B : Type) (m : App A) (k : A -> App B) (s : Session)
         (shown : list event) (a : A),
    m s = (shown, Done a) ->
    Streamlit.bind m k s = ((shown ++ fst (k a s))%list, snd (k a s)).
Proof. intros A B m k s shown a H; unfold Streamlit.bind; rewrite H; destruct (k a s); reflexivity. Qed.

Lemma card_lines_some :
  forall color n v avg s,
    card_lines color ((n, Some v) :: avg) s
    = (st_html (card_line n color (display n v)) :: fst (card_lines color avg s),
       snd (card_lines color avg s)).
Proof. intros; cbn [card_lines]; apply bind_say. Qed.

Lemma card_lines_none :
  forall color n avg s,
    card_lines color ((n, None) :: avg) s = card_lines color avg s.
Proof. intros; cbn [card_lines]; apply bind_ret. Qed.

Lemma card_lines_shown :
  forall (color : string) (avg : dict (option float)) (s : Session),
    snd (card_lines color avg s) = Done tt
    /\ forall ev, In ev (fst (card_lines color avg s)) <->
                  exists n v, In (n, Some v) avg
                              /\ ev = st_html (card_line n color (display n v)).
Proof.
  intros color avg s; induction avg as [|[n [v|]] avg [IHo IHe]].
  - split; [reflexivity|]. intros ev; split; [intros []|intros [n [v [[] _]]]].
  - rewrite card_lines_some; cbn [fst snd]. split; [exact IHo|].
    intros ev; split.
    + intros [Hev|Hev].
      * exists n, v; split; [left; reflexivity|symmetry; exact Hev].
      * apply IHe in Hev; destruct Hev as [n' [v' [Hin Hev]]].
        exists n', v'; split; [right; exact Hin|exact Hev].
    + intros [n' [v' [[Heq|Hin] Hev]]].
      * inversion Heq; subst; left; reflexivity.
      * right; apply IHe; exists n', v'; split; assumption.
  - rewrite card_lines_none. split; [exact IHo|].
    intros ev; split.
    + intros Hev; apply IHe in Hev; destruct Hev as [n' [v' [Hin Hev]]].
      exists n', v'; split; [right; exact Hin|exact Hev].
    + intros [n' [v' [[Heq|Hin] Hev]]]; [discriminate|].
      apply IHe; exists n', v'; split; assumption.
Qed.




Lemma opened_cards_app :
  forall a b, opened_cards (a ++ b) = (opened_cards a ++ opened_cards b)%list.
Proof. intros a b; unfold opened_cards; apply flat_map_app. Qed.

Lemma cluster_card_run :
  forall data show cid s,
    cluster_card data show cid s
    = if iget_default show cid true then
        match cluster_summary data cid with
        | Ok sm =>
            ((st_html (card_open cid (name sm) (count sm))
              :: fst (card_lines (color sm) (avg_data sm) s)
              ++ [st_html card_close])%list, Done tt)
        | Raise e => ([], Failed e)
        end
      else ([], Done tt).
Proof.
  intros data show cid s; unfold cluster_card.
  destruct (iget_default show cid true); [|reflexivity].
  destruct (cluster_summary data cid) as [sm|e]; [|reflexivity].
  rewrite bind_lift_ok, bind_say.
  destruct (card_lines_shown (color sm) (avg_data sm) s) as [Ho _].
  destruct (card_lines (color sm) (avg_data sm) s) as [lines o] eqn:Hl.
  cbn [snd] in Ho; subst o.
  rewrite (bind_done _ _ _ _ s lines tt Hl); reflexivity.
Qed.

Lemma opened_cards_of_card :
  forall cid label n lines,
    (forall ev, In ev lines -> exists i c d, ev = st_html (card_line i c d)) ->
    opened_cards (st_html (card_open cid label n) :: lines ++ [st_html card_close])
    = [cid].
Proof.
  intros cid label n lines H; cbn [opened_cards flat_map app]; f_equal.
  fold (opened_cards (lines ++ [st_html card_close])).
  rewrite opened_cards_app; cbn [opened_cards flat_map app]; rewrite app_nil_r.
  induction lines as [|ev lines IH]; [reflexivity|].
  destruct (H ev (or_introl eq_refl)) as [i [c [d ->]]]; cbn [opened_cards flat_map app].
  apply IH; intros ev' Hev'; apply H; right; exact Hev'.
Qed.

Lemma card_lines_are_lines :
  forall color avg s ev,
    In ev (fst (card_lines color avg s)) -> exists i c d, ev = st_html (card_line i c d).
Proof.
  intros color avg s ev H.
  apply (proj2 (card_lines_shown color avg s)) in H; destruct H as [n [v [_ ->]]].
  eexists _, _, _; reflexivity.
Qed.

Lemma cluster_card_opens :
  forall data show cid s c,
    In c (opened_cards (fst (cluster_card data show cid s))) -> c = cid.
Proof.
  intros data show cid s c; rewrite cluster_card_run.
  destruct (iget_default show cid true); [|intros []].
  destruct (cluster_summary data cid) as [sm|e]; [|intros []].
  cbn [fst]; rewrite opened_cards_of_card by apply card_lines_are_lines.
  intros [H|[]]; symmetry; exact H.
Qed.

Lemma for_in_opens :
  forall (l : list Z) (body : Z -> App unit) (s : Session) (c : Z),
    In c (opened_cards (fst (for_in l body s))) ->
    exists a, In a l /\ In c (opened_cards (fst (body a s))).
Proof.
  intros l body s c; induction l as [|a l IH]; cbn [for_in].
  - intros [].
  - unfold Streamlit.bind.
    destruct (body a s) as [shown [[]| |e]] eqn:Hb.
    + destruct (for_in l body s) as [shown' o]; cbn [fst] in *.
      rewrite opened_cards_app, in_app_iff; intros [H|H].
      * exists a; split; [left; reflexivity|rewrite Hb; exact H].
      * destruct (IH H) as [a' [Ha' Hc]]; exists a'; split; [right|]; assumption.
    + cbn [fst]; intros H; exists a; split; [left; reflexivity|rewrite Hb; exact H].
    + cbn [fst]; intros H; exists a; split; [left; reflexivity|rewrite Hb; exact H].
Qed.

Lemma for_in_all_done :
  forall (l : list Z) (body : Z -> App unit) (s : Session),
    (forall a, In a l -> snd (body a s) = Done tt) ->
    for_in l body s = (flat_map (fun a => fst (body a s)) l, Done tt).
Proof.
  intros l body s; induction l as [|a l IH]; intros H; cbn [for_in flat_map].
  - reflexivity.
  - assert (Ha : body a s = (fst (body a s), Done tt)).
    { rewrite <- (H a (or_introl eq_refl)); destruct (body a s); reflexivity. }
    rewrite (bind_done _ _ _ _ s _ tt Ha).
    rewrite IH; [reflexivity|intros a' Ha'; apply H; right; exact Ha'].
Qed.

Lemma four_clusters_summary :
  forall data cid,
    names_four_clusters data = true -> In cid (range 4) ->
    exists sm, cluster_summary data cid = Ok sm.
Proof.
  intros data cid H Hin; unfold names_four_clusters in H; unfold cluster_summary.
  destruct (cluster_labels data) as [lb|]; [|discriminate].
  destruct (clusters data) as [cl|]; [|discriminate].
  rewrite forallb_forall in H; specialize (H cid Hin).
  unfold getitem; cbn [required Py.bind].
  destruct (get lb (str cid)) as [label|]; [|discriminate]; cbn [Py.bind].
  assert (Hc : exists c, cluster_color cid = Ok c).
  { destruct Hin as [<-|[<-|[<-|[<-|[]]]]]; eexists; reflexivity. }
  destruct Hc as [c Hc]; rewrite Hc; eexists; reflexivity.
Qed.

(** The side bar, for its part, shows one check box per label of the
    document, whatever the cluster ids are. *)
Lemma show_clusters_one_checkbox_per_label :
  forall (labels : dict string) (acc : idict bool) (s : Session),
    Forall (fun kv => exists z, int (fst kv) = Ok z) labels ->
    fst (show_clusters labels acc s)
    = map (fun kv => st_checkbox (snd kv) ("c" ++ fst kv)) labels.
Proof.
  intros labels; induction labels as [|[i label] labels IH]; intros acc s H.
  - reflexivity.
  - inversion H as [|kv l [z Hz] Hrest]; subst; cbn [fst snd] in *.
    cbn [show_clusters]; rewrite Hz, bind_lift_ok.
    unfold Streamlit.bind at 1, checkbox.
    specialize (IH (iset acc z (checked s ("c" ++ i))) s Hrest).
    destruct (show_clusters labels (iset acc z (checked s ("c" ++ i))) s) as [shown o].
    cbn [fst] in *; rewrite IH; reflexivity.
Qed.

(** C8: the cards of the cluster profiles are those of the cluster ids 0, 1,
    2 and 3, the range the loop is written over.  For every document and
    every state of the toggles a card on the page is of one of these four
    ids, so an id outside 0..3 gets none even when [clusters] and
    [cluster_labels] have it; and when the document names the clusters 0 to
    3 the loop runs to its end and shows the card of each of the four ids
    whose toggle is on (a toggle that does not exist counts as on). *)
Theorem cluster_profiles_only_ids_0_to_3 :
  forall (data : Document) (show : idict bool) (s : Session),
    (forall cid, In cid (opened_cards (fst (cluster_profiles data show s))) ->
                 In cid [0; 1; 2; 3]%Z)
    /\ (names_four_clusters data = true ->
        snd (cluster_profiles data show s) = Done tt
        /\ opened_cards (fst (cluster_profiles data show s))
           = filter (fun cid => iget_default show cid true) [0; 1; 2; 3]%Z).
Proof.
  intros data show s; unfold cluster_profiles; rewrite bind_say; cbn [fst snd].
  change (opened_cards (st_markdown "### Cluster Profiles"
                        :: fst (for_in (range 4) (cluster_card data show) s)))
    with (opened_cards (fst (for_in (range 4) (cluster_card data show) s))).
  split.
  - intros cid H. apply for_in_opens in H; destruct H as [a [Ha Hc]].
    apply cluster_card_opens in Hc; subst cid; exact Ha.
  - intros Hnames.
    assert (Hdone : forall a, In a (range 4) ->
                              snd (cluster_card data show a s) = Done tt).
    { intros a Ha; rewrite cluster_card_run.
      destruct (iget_default show a true); [|reflexivity].
      destruct (four_clusters_summary data a Hnames Ha) as [sm Hsm].
      rewrite Hsm; reflexivity. }
    rewrite (for_in_all_done _ _ _ Hdone); cbn [fst snd]; split; [reflexivity|].
    assert (Hone : forall a, In a (range 4) ->
              opened_cards (fst (cluster_card data show a s))
              = if iget_default show a true then [a] else []).
    { intros a Ha; rewrite cluster_card_run.
      destruct (iget_default show a true); [|reflexivity].
      destruct (four_clusters_summary data a Hnames Ha) as [sm Hsm].
      rewrite Hsm; cbn [fst].
      apply opened_cards_of_card, card_lines_are_lines. }
    change (range 4) with [0; 1; 2; 3]%Z in *.
    cbn [flat_map filter]; rewrite !opened_cards_app.
    rewrite !Hone by (simpl; tauto).
    destruct (iget_default show 0 true), (iget_default show 1 true),
             (iget_default show 2 true), (iget_default show 3 true); reflexivity.
Qed.

Lemma cluster_profiles_only_ids_0_to_3_witness :
  (forall cid,
      In cid (opened_cards
                (fst (cluster_profiles Sample.six_clusters
                        [(4, true); (5, true); (2, false)]%Z Sample.everything_shown))) ->
      In cid [0; 1; 2; 3]%Z)
  /\ snd (cluster_profiles Sample.six_clusters
            [(4, true); (5, true); (2, false)]%Z Sample.everything_shown) = Done tt
  /\ opened_cards
       (fst (cluster_profiles Sample.six_clusters
               [(4, true); (5, true); (2, false)]%Z Sample.everything_shown))
     = [0; 1; 3]%Z.
Proof.
  destruct (cluster_profiles_only_ids_0_to_3 Sample.six_clusters
              [(4, true); (5, true); (2, false)]%Z Sample.everything_shown)
    as [Hin Hfour].
  split; [exact Hin|]. apply Hfour. reflexivity.
Defined.

Lemma count_eq_count_occ :
  forall (l : list Z) (k : Z), count_eq l k = count_occ Z.eq_dec l k.
Proof.
  intros l k; induction l as [|c l IH]; simpl; [reflexivity|].
  destruct (Z.eq_dec c k) as [->|Hne].
  - rewrite Z.eqb_refl, IH; reflexivity.
  - apply Z.eqb_neq in Hne; rewrite Hne, IH; reflexivity.
Qed.

(** C6, as the claim has it, fails: a valid dataset does not have a
    summary for every cluster id.  The body reads the label of the id and
    the colour of the id, and neither has to be there.  The sample with the
    labels 0 to 2 is valid and has no summary for 3; the sample with six
    clusters is valid, has countries in the cluster 5 and a label for it,
    and has no summary for 5, which has no colour. *)
Lemma cluster_summary_fails_on_valid_dataset :
  valid_dataset Sample.three_labels = true
  /\ labelled Sample.three_labels = true
  /\ cluster_summary Sample.three_labels 3 = Raise (KeyError "3")
  /\ valid_dataset Sample.six_clusters = true
  /\ labelled Sample.six_clusters = true
  /\ count_eq [0; 1; 2; 3; 4; 5]%Z 5 = 1%nat
  /\ get (or_empty (cluster_labels Sample.six_clusters)) "5" = Some "five"
  /\ cluster_summary Sample.six_clusters 5 = Raise (KeyError "5").
Proof. repeat split; reflexivity. Qed.

Lemma cluster_color_range :
  forall cid : Z,
    (In cid (range 4) -> exists c, cluster_color cid = Ok c /\ iget cluster_colors cid = Some c)
    /\ (~ In cid (range 4) -> cluster_color cid = Raise (KeyError (str cid))).
Proof.
  intros cid; split.
  - intros [<-|[<-|[<-|[<-|[]]]]]; eexists; split; reflexivity.
  - intros Hout; unfold cluster_color, cluster_colors; cbn [iget].
    destruct (Z.eqb_spec 0 cid) as [<-|_]; [contradiction Hout; simpl; tauto|].
    destruct (Z.eqb_spec 1 cid) as [<-|_]; [contradiction Hout; simpl; tauto|].
    destruct (Z.eqb_spec 2 cid) as [<-|_]; [contradiction Hout; simpl; tauto|].
    destruct (Z.eqb_spec 3 cid) as [<-|_]; [contradiction Hout; simpl; tauto|].
    reflexivity.
Qed.

(** C6: for a document that has [clusters] and [cluster_labels], and a
    cluster id from 0 to 3 that has a label in it, the summary of the loop
    body exists; its count is the number of entries of [clusters] equal to
    the id; its averages are the entry of [cluster_averages] under the id
    when the document has one and the empty mapping otherwise; and the raw
    indicator sequences play no part in it.  For an id without a label, and
    for an id outside 0 to 3, there is no summary but a [KeyError]. *)
Theorem cluster_summary_count_and_averages :
  forall (data : Document) (cid : Z) (cl : list Z) (lb : dict string),
    clusters data = Some cl ->
    cluster_labels data = Some lb ->
    (forall label,
        get lb (str cid) = Some label -> In cid (range 4) ->
        exists sm,
          cluster_summary data cid = Ok sm
          /\ name sm = label
          /\ count sm = count_occ Z.eq_dec cl cid
          /\ iget cluster_colors cid = Some (color sm)
          /\ avg_data sm = match cluster_averages data with
                           | Some averages =>
                               match get averages (str cid) with
                               | Some a => a
                               | None => []
                               end
                           | None => []
                           end
          /\ forall inds, cluster_summary (with_indicators data inds) cid = Ok sm)
    /\ (get lb (str cid) = None \/ ~ In cid (range 4) ->
        cluster_summary data cid = Raise (KeyError (str cid))).
Proof.
  intros data cid cl lb Hcl Hlb; split.
  - intros label Hlabel Hin.
    destruct (proj1 (cluster_color_range cid) Hin) as [c [Hc Hcolor]].
    unfold cluster_summary, with_indicators; cbn [clusters cluster_labels cluster_averages].
    rewrite Hcl, Hlb; cbn [required Py.bind]; unfold getitem.
    rewrite Hlabel, Hc; cbn [Py.bind].
    eexists; split; [reflexivity|]; cbn [name count color avg_data].
    split; [reflexivity|]. split; [apply count_eq_count_occ|]. split; [exact Hcolor|].
    split; [|intros inds; reflexivity].
    unfold get_default, or_empty; destruct (cluster_averages data) as [averages|]; reflexivity.
  - intros Hbad; unfold cluster_summary.
    rewrite Hcl, Hlb; cbn [required Py.bind]; unfold getitem.
    destruct (get lb (str cid)) as [label|] eqn:Hlabel; cbn [Py.bind]; [|reflexivity].
    destruct Hbad as [Hnone|Hout]; [discriminate Hnone|].
    rewrite (proj2 (cluster_color_range cid) Hout); reflexivity.
Qed.

Lemma cluster_summary_count_and_averages_witness :
  (exists sm,
      cluster_summary Sample.three_countries 0 = Ok sm
      /\ name sm = "Developed Nations"
      /\ count sm = count_occ Z.eq_dec [0; 1; 2]%Z 0%Z
      /\ iget cluster_colors 0 = Some (color sm)
      /\ avg_data sm = match cluster_averages Sample.three_countries with
                       | Some averages =>
                           match get averages (str 0) with
                           | Some a => a
                           | None => []
                           end
                       | None => []
                       end
      /\ forall inds, cluster_summary (with_indicators Sample.three_countries inds) 0 = Ok sm)
  /\ cluster_summary Sample.three_labels 3 = Raise (KeyError (str 3)).
Proof.
  split.
  - apply (proj1 (cluster_summary_count_and_averages Sample.three_countries 0
                    [0; 1; 2]%Z Sample.four_labels eq_refl eq_refl)
             "Developed Nations"); [reflexivity|simpl; tauto].
  - apply (proj2 (cluster_summary_count_and_averages Sample.three_labels 3
                    [0; 1; 2]%Z
                    [("0", "Developed Nations"); ("1", "Least Developed");
                     ("2", "Emerging Economies")] eq_refl eq_refl)).
    left; reflexivity.
Defined.

(** ** Tables and their rows *)

Lemma rows_of_length :
  forall (n : nat) (cols : list column), List.length (rows_of n cols) = n.
Proof.
  intros n; induction n as [|n IH]; intros cols; simpl; [reflexivity|].
  rewrite IH; reflexivity.
Qed.

Lemma get_map_column :
  forall (f : list cell -> list cell) (cols : list column) (k : string),
    get (map (fun c : column => (fst c, f (snd c))) cols) k
    = option_map f (get cols k).
Proof.
  intros f cols k; induction cols as [|[k' col] cols IH]; simpl; [reflexivity|].
  destruct (String.eqb k' k); [reflexivity|exact IH].
Qed.

Lemma get_map_cell :
  forall (f : list cell -> cell) (cols : list column) (k : string),
    get (map (fun c : column => (fst c, f (snd c))) cols) k
    = option_map f (get cols k).
Proof.
  intros f cols k; induction cols as [|[k' col] cols IH]; simpl; [reflexivity|].
  destruct (String.eqb k' k); [reflexivity|exact IH].
Qed.

Lemma nth_tl :
  forall (A : Type) (l : list A) (i : nat) (d : A), nth i (tl l) d = nth (S i) l d.
Proof. intros A [|a l] i d; [destruct i|]; reflexivity. Qed.

(** The [i]-th row holds the [i]-th cell of every column. *)
Lemma rows_of_nth :
  forall (n i : nat) (cols : list column),
    (i < n)%nat ->
    nth_error (rows_of n cols) i
    = Some (map (fun c : column => (fst c, nth i (snd c) CNaN)) cols).
Proof.
  intros n; induction n as [|n IH]; intros i cols Hi; [lia|].
  destruct i as [|i]; simpl.
  - unfold heads; f_equal; apply map_ext; intros [k [|c col]]; reflexivity.
  - rewrite IH by lia; unfold tails; rewrite map_map; f_equal.
    apply map_ext; intros [k col]; cbn [fst snd]; rewrite nth_tl; reflexivity.
Qed.

Lemma row_field :
  forall (t : DataFrame) (i : nat) (k : string) (col : list cell) (c : cell),
    (i < nrows t)%nat -> get (columns t) k = Some col -> nth_error col i = Some c ->
    exists r, nth_error (rows t) i = Some r /\ field r k = Some c.
Proof.
  intros t i k col c Hi Hcol Hc; unfold rows, field.
  rewrite rows_of_nth by exact Hi; eexists; split; [reflexivity|].
  rewrite (get_map_cell (fun l => nth i l CNaN)), Hcol; simpl; f_equal.
  apply nth_error_nth; exact Hc.
Qed.

Lemma keep_length_seq :
  forall (m : list bool) (n a b : nat),
    List.length (keep m (seq a n)) = List.length (keep m (seq b n)).
Proof.
  intros m; induction m as [|x m IH]; intros n a b; [reflexivity|].
  destruct n as [|n]; [reflexivity|]; simpl.
  destruct x; simpl; rewrite (IH n (S a) (S b)); reflexivity.
Qed.

Lemma heads_keep_true :
  forall (m : list bool) (n : nat) (cols : list column),
    Forall (fun c : column => List.length (snd c) = S n) cols ->
    heads (map (fun c : column => (fst c, keep (true :: m) (snd c))) cols) = heads cols.
Proof.
  intros m n cols H; unfold heads; rewrite map_map.
  apply map_ext_in; intros [k col] Hin; cbn [fst snd].
  rewrite Forall_forall in H; specialize (H _ Hin); cbn [snd] in H.
  destruct col; [discriminate|reflexivity].
Qed.

Lemma tails_keep :
  forall (b : bool) (m : list bool) (n : nat) (cols : list column),
    Forall (fun c : column => List.length (snd c) = S n) cols ->
    (if b then tails (map (fun c : column => (fst c, keep (b :: m) (snd c))) cols)
     else map (fun c : column => (fst c, keep (b :: m) (snd c))) cols)
    = map (fun c : column => (fst c, keep m (snd c))) (tails cols).
Proof.
  intros b m n cols H; unfold tails; destruct b; rewrite !map_map;
    apply map_ext_in; intros [k col] Hin; cbn [fst snd];
    rewrite Forall_forall in H; specialize (H _ Hin); cbn [snd] in H;
    (destruct col; [discriminate|reflexivity]).
Qed.

Lemma tails_well_formed :
  forall (n : nat) (cols : list column),
    Forall (fun c : column => List.length (snd c) = S n) cols ->
    Forall (fun c : column => List.length (snd c) = n) (tails cols).
Proof.
  intros n cols H; unfold tails; apply Forall_map.
  apply Forall_impl with (2 := H); intros [k col] Hc; cbn [snd] in *.
  destruct col; [discriminate|simpl in *; lia].
Qed.

(** Selecting by a mask column by column is selecting the rows. *)
Lemma rows_of_keep :
  forall (n : nat) (m : list bool) (cols : list column),
    Forall (fun c : column => List.length (snd c) = n) cols ->
    List.length m = n ->
    rows_of (List.length (keep m (seq 0 n)))
            (map (fun c : column => (fst c, keep m (snd c))) cols)
    = keep m (rows_of n cols).
Proof.
  intros n; induction n as [|n IH]; intros m cols Hcols Hm.
  - destruct m; [reflexivity|discriminate].
  - destruct m as [|b m]; [discriminate|]. injection Hm as Hm.
    pose proof (tails_keep b m n cols Hcols) as Ht.
    pose proof (tails_well_formed n cols Hcols) as Hwf.
    assert (Hkeep : forall (A : Type) (a : A) (l : list A),
               keep (b :: m) (a :: l) = if b then a :: keep m l else keep m l)
      by reflexivity.
    cbn [seq rows_of]; rewrite !Hkeep. destruct b; cbn [List.length rows_of].
    + rewrite (heads_keep_true m n cols Hcols), Ht.
      rewrite (keep_length_seq m n 1 0), (IH m (tails cols) Hwf Hm); reflexivity.
    + rewrite Ht, (keep_length_seq m n 1 0). apply (IH m (tails cols) Hwf Hm).
Qed.

Lemma keep_row_shown :
  forall (shown : list Z) (n : nat) (cols : list column) (col : list cell),
    get cols "Cluster" = Some col -> List.length col = n ->
    keep (isin col shown) (rows_of n cols) = filter (row_shown shown) (rows_of n cols).
Proof.
  intros shown n; induction n as [|n IH]; intros cols col Hcol Hlen.
  - destruct col; [reflexivity|discriminate].
  - destruct col as [|c col]; [discriminate|]. injection Hlen as Hlen.
    cbn [isin map rows_of keep filter].
    assert (Hhead : row_shown shown (heads cols) = cell_in shown c).
    { unfold row_shown, field, heads.
      rewrite (get_map_cell (hd CNaN)), Hcol; reflexivity. }
    assert (Htail : get (tails cols) "Cluster" = Some col).
    { unfold tails; rewrite (get_map_column (@tl cell)), Hcol; reflexivity. }
    rewrite Hhead; fold (isin col shown).
    rewrite (IH (tails cols) col Htail Hlen); reflexivity.
Qed.

Lemma keep_all :
  forall (A : Type) (m : list bool) (l : list A),
    Forall (fun b => b = true) m -> List.length m = List.length l -> keep m l = l.
Proof.
  intros A m; induction m as [|b m IH]; intros l Hm Hlen.
  - destruct l; [reflexivity|discriminate].
  - destruct l as [|a l]; [discriminate|]. inversion Hm; subst; simpl.
    f_equal; apply IH; [assumption|simpl in Hlen; lia].
Qed.


Lemma cell_in_int :
  forall (shown : list Z) (z : Z), cell_in shown (CInt z) = true <-> In z shown.
Proof.
  intros shown z; simpl; rewrite existsb_exists; split.
  - intros [y [Hy Heq]]; apply Z.eqb_eq in Heq; subst; exact Hy.
  - intros H; exists z; split; [exact H|apply Z.eqb_refl].
Qed.

Lemma well_formed_columns :
  forall t, well_formed t = true ->
            Forall (fun c : column => List.length (snd c) = nrows t) (columns t).
Proof.
  intros t H; unfold well_formed in H; rewrite forallb_forall in H.
  apply Forall_forall; intros c Hc; apply Nat.eqb_eq, H, Hc.
Qed.

Lemma well_formed_column :
  forall t k col, well_formed t = true -> get (columns t) k = Some col ->
                  List.length col = nrows t.
Proof.
  intros t k col H Hcol; apply get_In in Hcol.
  pose proof (well_formed_columns t H) as Hall; rewrite Forall_forall in Hall.
  apply (Hall (k, col) Hcol).
Qed.

Lemma rows_select :
  forall t m, well_formed t = true -> List.length m = nrows t ->
              rows (select t m) = keep m (rows t).
Proof.
  intros t m H Hm; unfold rows, select; cbn [nrows columns].
  apply rows_of_keep; [apply well_formed_columns; exact H|exact Hm].
Qed.

Lemma select_everything :
  forall t m, well_formed t = true -> List.length m = nrows t ->
              Forall (fun b => b = true) m -> select t m = t.
Proof.
  intros [n cols] m H Hm Hall; unfold select; cbn [nrows columns] in *.
  pose proof (well_formed_columns _ H) as Hcols; cbn [nrows columns] in Hcols.
  f_equal.
  - rewrite keep_all; [apply length_seq|exact Hall|rewrite length_seq; exact Hm].
  - rewrite <- (map_id cols) at 2. apply map_ext_in; intros [k col] Hin; cbn [fst snd].
    rewrite Forall_forall in Hcols; specialize (Hcols _ Hin); cbn [snd] in Hcols.
    rewrite keep_all; [reflexivity|exact Hall|lia].
Qed.

(** ** The cluster filter *)

Lemma df_filtered_rows :
  forall (t : DataFrame) (shown : list Z) (col : list cell),
    well_formed t = true ->
    get (columns t) "Cluster" = Some col ->
    df_filtered t shown = Ok (select t (isin col shown))
    /\ rows (select t (isin col shown)) = filter (row_shown shown) (rows t).
Proof.
  intros t shown col Hwf Hcol.
  pose proof (well_formed_column t "Cluster" col Hwf Hcol) as Hlen.
  split.
  - unfold df_filtered, mask, getcol, getitem; rewrite Hcol; reflexivity.
  - rewrite rows_select; [|exact Hwf|unfold isin; rewrite length_map; exact Hlen].
    apply keep_row_shown; assumption.
Qed.

(** C2: [df_filtered] keeps exactly the rows whose Cluster is among the
    cluster ids that are shown, in their order; nothing shown gives no row,
    and when every Cluster of the table is shown the table comes back as it
    is. *)
Theorem df_filtered_keeps_shown_rows :
  forall (t : DataFrame) (shown : list Z) (col : list cell),
    well_formed t = true ->
    get (columns t) "Cluster" = Some col ->
    exists kept,
      df_filtered t shown = Ok kept
      /\ rows kept = filter (row_shown shown) (rows t)
      /\ (forall r z, field r "Cluster" = Some (CInt z) ->
                      (row_shown shown r = true <-> In z shown))
      /\ (exists none, df_filtered t [] = Ok none /\ rows none = [])
      /\ ((forall c, In c col -> cell_in shown c = true) -> kept = t).
Proof.
  intros t shown col Hwf Hcol.
  pose proof (well_formed_column t "Cluster" col Hwf Hcol) as Hlen.
  pose proof (fun ids => proj1 (df_filtered_rows t ids col Hwf Hcol)) as Hrun.
  pose proof (fun ids => proj2 (df_filtered_rows t ids col Hwf Hcol)) as Hrows.
  exists (select t (isin col shown)).
  split; [apply Hrun|]. split; [apply Hrows|]. split; [|split].
  - intros r z Hr; unfold row_shown; rewrite Hr; apply cell_in_int.
  - exists (select t (isin col [])); split; [apply Hrun|].
    rewrite Hrows. generalize (rows t) as l; clear.
    intros l; induction l as [|r l IH]; [reflexivity|].
    cbn [filter]. replace (row_shown [] r) with false; [exact IH|].
    unfold row_shown; destruct (field r "Cluster") as [[| |]|]; reflexivity.
  - intros Hall; apply select_everything;
      [exact Hwf|unfold isin; rewrite length_map; exact Hlen|].
    unfold isin; apply Forall_map, Forall_forall; exact Hall.
Qed.

Lemma df_filtered_keeps_shown_rows_witness :
  exists kept,
    df_filtered Sample.small_table [0%Z] = Ok kept
    /\ rows kept = filter (row_shown [0%Z]) (rows Sample.small_table)
    /\ (forall r z, field r "Cluster" = Some (CInt z) ->
                    (row_shown [0%Z] r = true <-> In z [0%Z]))
    /\ (exists none, df_filtered Sample.small_table [] = Ok none /\ rows none = [])
    /\ ((forall c, In c [CInt 0; CInt 1; CInt 0] -> cell_in [0%Z] c = true) ->
        kept = Sample.small_table).
Proof.
  apply (df_filtered_keeps_shown_rows Sample.small_table [0%Z] [CInt 0; CInt 1; CInt 0]);
    reflexivity.
Defined.

(** ** Building the table *)

Lemma list_of_append :
  forall a b : string,
    list_ascii_of_string (a ++ b)
    = (list_ascii_of_string a ++ list_ascii_of_string b)%list.
Proof.
  intros a b; induction a as [|c a IH]; simpl; [reflexivity|rewrite IH; reflexivity].
Qed.

(** A name that ends in [suffix] shows it at the head of its reversal. *)
Lemma ends_with_suffix :
  forall m suffix k : string,
    k = m ++ suffix ->
    firstn (String.length suffix) (rev (list_ascii_of_string k))
    = rev (list_ascii_of_string suffix).
Proof.
  intros m suffix k ->.
  rewrite list_of_append, rev_app_distr.
  assert (Hlen : String.length suffix
                 = List.length (rev (list_ascii_of_string suffix))).
  { rewrite length_rev. clear; induction suffix; simpl; congruence. }
  rewrite Hlen, <- (Nat.add_0_r (List.length _)), firstn_app_2.
  simpl; apply app_nil_r.
Qed.

Lemma append_cancel_suffix :
  forall a b suffix : string, a ++ suffix = b ++ suffix -> a = b.
Proof.
  intros a b suffix H.
  apply (f_equal list_ascii_of_string) in H; rewrite !list_of_append in H.
  apply app_inv_tail in H.
  rewrite <- (string_of_list_ascii_of_string a), <- (string_of_list_ascii_of_string b), H.
  reflexivity.
Qed.

(** The projection columns never take the place of the three columns the
    table starts with, nor the place of one another. *)
Lemma projection_column_names :
  forall m k : string,
    In k ["Country"; "Cluster"; "Cluster_Name"] ->
    k <> m ++ "_x" /\ k <> m ++ "_y".
Proof.
  intros m k Hk; split; intros Heq; apply ends_with_suffix in Heq;
    destruct Hk as [<-|[<-|[<-|[]]]]; discriminate.
Qed.

Lemma x_is_not_y : forall m m' : string, m ++ "_x" <> m' ++ "_y".
Proof.
  intros m m' H. apply (f_equal list_ascii_of_string) in H.
  rewrite !list_of_append in H.
  change (list_ascii_of_string "_x") with (["_"] ++ ["x"])%char%list in H.
  change (list_ascii_of_string "_y") with (["_"] ++ ["y"])%char%list in H.
  rewrite !app_assoc in H. apply app_inj_tail in H; destruct H as [_ H]; discriminate.
Qed.

Lemma get_set_column_same :
  forall cols name vals, get (set_column cols name vals) name = Some vals.
Proof.
  intros cols name vals; induction cols as [|[k old] cols IH]; simpl.
  - rewrite String.eqb_refl; reflexivity.
  - destruct (String.eqb k name) eqn:Hk; simpl; rewrite Hk; [reflexivity|exact IH].
Qed.

Lemma get_set_column_other :
  forall cols name vals k,
    k <> name -> get (set_column cols name vals) k = get cols k.
Proof.
  intros cols name vals k Hne; induction cols as [|[k' old] cols IH]; simpl.
  - apply not_eq_sym, String.eqb_neq in Hne; rewrite Hne; reflexivity.
  - destruct (String.eqb_spec k' name) as [->|Hk]; simpl.
    + apply not_eq_sym, String.eqb_neq in Hne; rewrite Hne; reflexivity.
    + destruct (String.eqb k' k); [reflexivity|exact IH].
Qed.

Lemma set_column_lengths :
  forall (n : nat) cols name vals,
    forallb (fun c : column => (List.length (snd c) =? n)%nat) cols = true ->
    List.length vals = n ->
    forallb (fun c : column => (List.length (snd c) =? n)%nat)
            (set_column cols name vals) = true.
Proof.
  intros n cols name vals Hcols Hvals; induction cols as [|[k old] cols IH]; simpl in *.
  - rewrite Hvals, Nat.eqb_refl; reflexivity.
  - apply andb_true_iff in Hcols; destruct Hcols as [Hold Hcols].
    destruct (String.eqb k name); simpl.
    + rewrite Hvals, Nat.eqb_refl, Hcols; reflexivity.
    + rewrite Hold, (IH Hcols); reflexivity.
Qed.

(** Setting a column of the right length keeps the index and the other
    columns. *)
Lemma setitem_aligned :
  forall t name vals,
    well_formed t = true -> List.length vals = nrows t ->
    exists t',
      setitem t name vals = Ok t'
      /\ nrows t' = nrows t
      /\ well_formed t' = true
      /\ get (columns t') name = Some vals
      /\ forall k, k <> name -> get (columns t') k = get (columns t) k.
Proof.
  intros t name vals Hwf Hlen.
  exists {| nrows := nrows t; columns := set_column (columns t) name vals |}.
  split.
  - unfold setitem; rewrite Hlen, Nat.eqb_refl.
    destruct (nrows t =? 0)%nat; reflexivity.
  - cbn [nrows columns]; split; [reflexivity|]. split; [|split].
    + unfold well_formed; cbn [nrows columns]; apply set_column_lengths; assumption.
    + apply get_set_column_same.
    + intros k Hk; apply get_set_column_other; exact Hk.
Qed.

Lemma add_embeddings_aligned :
  forall (em : dict Embedding) (methods : list string) (t : DataFrame),
    well_formed t = true ->
    (forall m, In m methods ->
               exists e, get em m = Some e
                         /\ List.length (emb_x e) = nrows t
                         /\ List.length (emb_y e) = nrows t) ->
    exists t',
      add_embeddings em methods t = Ok t'
      /\ nrows t' = nrows t
      /\ well_formed t' = true
      /\ (forall k, (forall m, In m methods -> k <> m ++ "_x" /\ k <> m ++ "_y") ->
                    get (columns t') k = get (columns t) k)
      /\ (forall m e, In m methods -> get em m = Some e ->
                      get (columns t') (m ++ "_x") = Some (map CFloat (emb_x e))
                      /\ get (columns t') (m ++ "_y") = Some (map CFloat (emb_y e))).
Proof.
  intros em methods; induction methods as [|m methods IH]; intros t Hwf Hem.
  - exists t; split; [reflexivity|]. split; [reflexivity|]. split; [exact Hwf|].
    split; [intros; reflexivity|intros m e []].
  - destruct (Hem m (or_introl eq_refl)) as [e [He [Hx Hy]]].
    destruct (setitem_aligned t (m ++ "_x") (map CFloat (emb_x e)) Hwf)
      as [t1 [Hs1 [Hn1 [Hwf1 [Hget1 Hoth1]]]]]; [rewrite length_map; exact Hx|].
    destruct (setitem_aligned t1 (m ++ "_y") (map CFloat (emb_y e)) Hwf1)
      as [t2 [Hs2 [Hn2 [Hwf2 [Hget2 Hoth2]]]]]; [rewrite length_map; lia|].
    destruct (IH t2 Hwf2) as [t' [Hrun [Hn' [Hwf' [Hoth' Hget']]]]].
    { intros m' Hm'; destruct (Hem m' (or_intror Hm')) as [e' [He' [Hx' Hy']]].
      exists e'; split; [exact He'|]; split; lia. }
    exists t'; split.
    { cbn [add_embeddings]; unfold getitem; rewrite He; cbn [Py.bind].
      rewrite Hs1; cbn [Py.bind]; rewrite Hs2; cbn [Py.bind]; exact Hrun. }
    split; [lia|]. split; [exact Hwf'|]. split.
    + intros k Hk. destruct (Hk m (or_introl eq_refl)) as [Hkx Hky].
      rewrite Hoth' by (intros m' Hm'; apply Hk; right; exact Hm').
      rewrite Hoth2 by exact Hky. apply Hoth1; exact Hkx.
    + intros m' e' [<-|Hm'] He'.
      * rewrite He in He'; injection He' as <-.
        destruct (in_dec string_dec m methods) as [Hin|Hnin];
          [apply Hget'; assumption|].
        rewrite !Hoth'.
        -- split; [|exact Hget2]. rewrite Hoth2; [exact Hget1|apply x_is_not_y].
        -- intros m' Hm'; split; [apply not_eq_sym, x_is_not_y|].
           intros Heq; apply append_cancel_suffix in Heq; subst; contradiction.
        -- intros m' Hm'; split; [|apply x_is_not_y].
           intros Heq; apply append_cancel_suffix in Heq; subst; contradiction.
      * apply Hget'; assumption.
Qed.

Lemma add_indicators_aligned :
  forall (items : dict (list (option float))) (t : DataFrame),
    well_formed t = true ->
    forallb (fun i : string * list (option float) => same_length (nrows t) (snd i)) items
    = true ->
    exists t',
      add_indicators items t = Ok t'
      /\ nrows t' = nrows t
      /\ well_formed t' = true
      /\ forall k, existsb (String.eqb k) (keys items) = false ->
                   get (columns t') k = get (columns t) k.
Proof.
  intros items; induction items as [|[ind values] items IH]; intros t Hwf Hlen.
  - exists t; repeat split; trivial.
  - cbn [forallb snd] in Hlen; apply andb_true_iff in Hlen; destruct Hlen as [Hv Hlen].
    unfold same_length in Hv; apply Nat.eqb_eq in Hv.
    destruct (setitem_aligned t ind (map number_cell values) Hwf)
      as [t1 [Hs1 [Hn1 [Hwf1 [_ Hoth1]]]]]; [rewrite length_map; exact Hv|].
    destruct (IH t1 Hwf1) as [t' [Hrun [Hn' [Hwf' Hoth']]]];
      [rewrite Hn1; exact Hlen|].
    exists t'; split; [cbn [add_indicators]; rewrite Hs1; exact Hrun|].
    split; [lia|]. split; [exact Hwf'|].
    intros k Hk; cbn [keys map fst existsb] in Hk.
    apply orb_false_iff in Hk; destruct Hk as [Hk1 Hk2].
    rewrite (Hoth' k Hk2). apply Hoth1, String.eqb_neq; exact Hk1.
Qed.

Lemma keys_get :
  forall (V : Type) (d : dict V) (k : string),
    In k (keys d) -> exists v, get d k = Some v.
Proof.
  intros V d k; induction d as [|[k' v'] d IH]; simpl; [intros []|].
  intros [->|H].
  - rewrite String.eqb_refl; exists v'; reflexivity.
  - destruct (String.eqb k' k); [exists v'; reflexivity|apply IH; exact H].
Qed.

Lemma avoided_is_no_key :
  forall (names : list string) (data : Document) (k : string),
    indicators_avoid names data = true -> In k names ->
    existsb (String.eqb k) (keys (or_empty (indicators data))) = false.
Proof.
  intros names data k H Hk; unfold indicators_avoid in H; rewrite forallb_forall in H.
  apply not_true_is_false; intros Hex.
  apply existsb_exists in Hex; destruct Hex as [k' [Hk' Heq]].
  apply String.eqb_eq in Heq; subst k'.
  specialize (H k Hk'); apply negb_true_iff in H.
  assert (Hex : existsb (String.eqb k) names = true)
    by (apply existsb_exists; exists k; split; [exact Hk|apply String.eqb_refl]).
  rewrite Hex in H; discriminate.
Qed.

(** The table of a valid document whose cluster ids all have a label: it is
    built, it has one row per country, and a column keeps what the script
    first put under its name unless a later column has the same name. *)
Lemma df_aligned :
  forall (data : Document) (co : list string) (cl : list Z) (em : dict Embedding),
    countries data = Some co -> clusters data = Some cl -> embeddings data = Some em ->
    valid_dataset data = true -> labelled data = true ->
    exists t names,
      df data = Ok t
      /\ cluster_names data = Ok names
      /\ nrows t = List.length co
      /\ well_formed t = true
      /\ (forall k,
             In k ["Country"; "Cluster"; "Cluster_Name"] ->
             existsb (String.eqb k) (keys (or_empty (indicators data))) = false ->
             get (columns t) k
             = get [("Country", map CStr co); ("Cluster", map CInt cl);
                    ("Cluster_Name", map CStr names)] k)
      /\ (forall m e,
             get em m = Some e ->
             (existsb (String.eqb (m ++ "_x")) (keys (or_empty (indicators data))) = false ->
              get (columns t) (m ++ "_x") = Some (map CFloat (emb_x e)))
             /\ (existsb (String.eqb (m ++ "_y")) (keys (or_empty (indicators data))) = false ->
                 get (columns t) (m ++ "_y") = Some (map CFloat (emb_y e)))).
Proof.
  intros data co cl em Hco Hcl Hem Hvalid Hlab.
  destruct (labelled_cluster_names data Hlab) as [names Hnames].
  pose proof (cluster_names_length data cl names Hcl Hnames) as Hnl.
  unfold valid_dataset in Hvalid; rewrite Hco, Hcl, Hem in Hvalid.
  destruct (cluster_labels data) as [lb|]; [|discriminate].
  apply andb_true_iff in Hvalid; destruct Hvalid as [Hvalid Hinds].
  apply andb_true_iff in Hvalid; destruct Hvalid as [Hcllen Hemlen].
  unfold same_length in Hcllen; apply Nat.eqb_eq in Hcllen.
  set (t0 := {| nrows := List.length co;
                columns := [("Country", map CStr co); ("Cluster", map CInt cl);
                            ("Cluster_Name", map CStr names)] |}).
  assert (H0 : new_frame data = Ok t0).
  { unfold new_frame; rewrite Hco, Hcl, Hnames; cbn [required Py.bind].
    unfold from_dict; cbn [forallb snd]; rewrite !length_map.
    rewrite Hnl, Hcllen, Nat.eqb_refl; reflexivity. }
  assert (Hwf0 : well_formed t0 = true).
  { unfold well_formed, t0; cbn [nrows columns forallb snd]; rewrite !length_map.
    rewrite Hnl, Hcllen, Nat.eqb_refl; reflexivity. }
  destruct (add_embeddings_aligned em (keys em) t0 Hwf0)
    as [t1 [H1 [Hn1 [Hwf1 [Hoth1 Hget1]]]]].
  { intros m Hm; destruct (keys_get _ em m Hm) as [e He]; exists e; split; [exact He|].
    rewrite forallb_forall in Hemlen; specialize (Hemlen (m, e) (get_In _ _ _ _ He)).
    cbn [snd] in Hemlen; apply andb_true_iff in Hemlen; destruct Hemlen as [Hx Hy].
    unfold same_length in Hx, Hy; apply Nat.eqb_eq in Hx, Hy; split; assumption. }
  destruct (add_indicators_aligned (or_empty (indicators data)) t1 Hwf1)
    as [t [H2 [Hn2 [Hwf2 Hoth2]]]]; [rewrite Hn1; exact Hinds|].
  exists t, names.
  split; [unfold df; rewrite H0, Hem; cbn [required Py.bind]; rewrite H1; exact H2|].
  split; [exact Hnames|]. split; [rewrite Hn2, Hn1; reflexivity|].
  split; [exact Hwf2|]. split.
  - intros k Hk Hfree. rewrite (Hoth2 k Hfree).
    apply Hoth1; intros m _; apply projection_column_names; exact Hk.
  - intros m e He.
    assert (Hm : In m (keys em))
      by (unfold keys; apply in_map_iff; exists (m, e); split;
          [reflexivity|apply get_In; exact He]).
    destruct (Hget1 m e Hm He) as [Hx Hy].
    split; intros Hfree; rewrite (Hoth2 _ Hfree); assumption.
Qed.

(** C1, as the claim has it, fails on two valid documents: one has an
    indicator called Country, whose numbers take the place of the country
    names in the table; the other uses a cluster id that has no label, and
    the table is not built at all. *)
Lemma df_loses_alignment :
  (valid_dataset Sample.indicator_called_country = true
   /\ countries Sample.indicator_called_country = Some ["Norway"; "Chad"]
   /\ exists t r,
        df Sample.indicator_called_country = Ok t
        /\ nth_error (rows t) 0 = Some r
        /\ field r "Country" = Some (CFloat Sample.f7_86))
  /\ (valid_dataset Sample.unnamed_cluster = true
      /\ df Sample.unnamed_cluster = Raise (KeyError "7")).
Proof.
  split.
  - split; [reflexivity|]. split; [reflexivity|].
    eexists _, _; split; [vm_compute; reflexivity|].
    split; reflexivity.
  - split; reflexivity.
Qed.

(** C1, amended: for every valid document in which every cluster id has a
    label and no indicator is called Country, Cluster or Cluster_Name, the
    table is built with one row per country, and the row at index [i] has
    the [i]-th country, the [i]-th cluster id and the label of that id. *)
Theorem df_rows_aligned :
  forall (data : Document) (co : list string) (cl : list Z) (lb : dict string),
    valid_dataset data = true ->
    labelled data = true ->
    indicators_avoid ["Country"; "Cluster"; "Cluster_Name"] data = true ->
    countries data = Some co ->
    clusters data = Some cl ->
    cluster_labels data = Some lb ->
    exists t,
      df data = Ok t
      /\ List.length (rows t) = List.length co
      /\ forall i country c,
           nth_error co i = Some country ->
           nth_error cl i = Some c ->
           exists r label,
             nth_error (rows t) i = Some r
             /\ field r "Country" = Some (CStr country)
             /\ field r "Cluster" = Some (CInt c)
             /\ get lb (str c) = Some label
             /\ field r "Cluster_Name" = Some (CStr label).
Proof.
  intros data co cl lb Hvalid Hlab Havoid Hco Hcl Hlb.
  assert (Hem : exists em, embeddings data = Some em).
  { unfold valid_dataset in Hvalid; rewrite Hco, Hcl, Hlb in Hvalid.
    destruct (embeddings data) as [em|]; [exists em; reflexivity|discriminate]. }
  destruct Hem as [em Hem].
  destruct (df_aligned data co cl em Hco Hcl Hem Hvalid Hlab)
    as [t [names [Hdf [Hnames [Hn [Hwf [Hfixed _]]]]]]].
  exists t; split; [exact Hdf|].
  split; [unfold rows; rewrite rows_of_length; exact Hn|].
  intros i country c Hi Hc.
  assert (Hlt : (i < nrows t)%nat)
    by (rewrite Hn; apply nth_error_Some; rewrite Hi; discriminate).
  assert (Hname : exists label, nth_error names i = Some label
                                /\ get lb (str c) = Some label).
  { unfold cluster_names in Hnames; rewrite Hcl in Hnames; cbn [required Py.bind] in Hnames.
    destruct (for_each_nth _ _ _ _ _ i c Hnames Hc) as [label [Hl Hf]].
    exists label; split; [exact Hl|].
    rewrite Hlb in Hf; cbn [required Py.bind] in Hf; unfold getitem in Hf.
    destruct (get lb (str c)); [injection Hf as ->; reflexivity|discriminate]. }
  destruct Hname as [label [Hlabel Hget]].
  pose proof (fun k Hk => Hfixed k Hk (avoided_is_no_key _ data k Havoid Hk)) as Hcolumn.
  destruct (row_field t i "Country" (map CStr co) (CStr country) Hlt)
    as [r [Hr Hcountry]];
    [apply Hcolumn; simpl; tauto|apply map_nth_error; exact Hi|].
  destruct (row_field t i "Cluster" (map CInt cl) (CInt c) Hlt)
    as [r1 [Hr1 Hcluster]];
    [apply Hcolumn; simpl; tauto|apply map_nth_error; exact Hc|].
  destruct (row_field t i "Cluster_Name" (map CStr names) (CStr label) Hlt)
    as [r2 [Hr2 Hcname]];
    [apply Hcolumn; simpl; tauto|apply map_nth_error; exact Hlabel|].
  rewrite Hr in Hr1, Hr2; injection Hr1 as <-; injection Hr2 as <-.
  exists r, label; repeat split; assumption.
Qed.

Lemma df_rows_aligned_witness :
  exists t,
    df Sample.three_countries = Ok t
    /\ List.length (rows t) = List.length ["Norway"; "Chad"; "Peru"]
    /\ forall i country c,
         nth_error ["Norway"; "Chad"; "Peru"] i = Some country ->
         nth_error [0; 1; 2]%Z i = Some c ->
         exists r label,
           nth_error (rows t) i = Some r
           /\ field r "Country" = Some (CStr country)
           /\ field r "Cluster" = Some (CInt c)
           /\ get Sample.four_labels (str c) = Some label
           /\ field r "Cluster_Name" = Some (CStr label).
Proof.
  apply (df_rows_aligned Sample.three_countries ["Norway"; "Chad"; "Peru"]
           [0; 1; 2]%Z Sample.four_labels); reflexivity.
Defined.

(** ** The highlight of the selected country *)







(** The same on a whole run of the page: with Chad selected and its cluster
    switched off, both figures are drawn over the two other countries, the
    first one carries the marker of Chad, the cards are those of the
    clusters 0, 2 and 3, and the detail of Chad is shown. *)
Example page_with_chad_hidden :
  let page := dashboard (Sample.holding Sample.three_countries) Sample.chad_hidden in
  snd page = Done tt
  /\ map (fun fig => nrows (data_frame fig)) (charts (fst page)) = [2; 2]%nat
  /\ map added_traces (charts (fst page))
     = [[{| sc_x := [CFloat (Sample.of_int 2)]; sc_y := [CFloat (Sample.of_int 5)];
            sc_text := ["Chad"] |}]; []]
  /\ opened_cards (fst page) = [0; 2; 3]%Z
  /\ In (st_metric 0 "Cluster" "Least Developed") (fst page).
Proof.
  vm_compute. repeat split; try reflexivity.
  repeat (first [left; reflexivity | right]).
Qed.


(** ** The detail of a country *)







(** ** How a number is printed *)













(** The sample floats are the doubles nearest to 7.86 and to 52000.4: the
    mantissa has 53 bits and the value is within half a unit of the last
    place of the decimal number. *)
Lemma sample_floats_are_nearest_doubles :
  (2 ^ 52 <= fman Sample.d7_86 < 2 ^ 53)%N
  /\ (2 * Z.abs (100 * Z.of_N (fman Sample.d7_86) - 786 * 2 ^ 50) <= 100)%Z
  /\ (2 ^ 52 <= fman Sample.d52000_4 < 2 ^ 53)%N
  /\ (2 * Z.abs (10 * Z.of_N (fman Sample.d52000_4) - 520004 * 2 ^ 37) <= 10)%Z.
Proof. vm_compute; repeat split; discriminate. Qed.




(** * Further properties of the script *)

(** ** The table, whatever the document *)


Lemma set_column_keeps_names :
  forall cols name vals k,
    get cols k <> None -> get (set_column cols name vals) k <> None.
Proof.
  intros cols name vals k; induction cols as [|[k' old] cols IH]; simpl.
  - intros H; contradiction.
  - destruct (String.eqb k' name) eqn:Hn; simpl;
      destruct (String.eqb k' k); try discriminate; auto.
Qed.

Lemma blank_columns_keep_names :
  forall (cols : list column) (n : nat) (k : string),
    get cols k <> None ->
    get (map (fun c : column => (fst c, repeat CNaN n)) cols) k <> None.
Proof.
  intros cols n k H.
  rewrite (get_map_column (fun _ => repeat CNaN n)).
  destruct (get cols k); [discriminate|contradiction].
Qed.

(** [df[name] = vals], when it goes through, leaves a table whose columns
    span the index, with the column [name] and every column it had. *)
Lemma setitem_keeps_shape :
  forall t name vals t',
    setitem t name vals = Ok t' ->
    well_formed t = true ->
    well_formed t' = true
    /\ has_column t' name = true
    /\ forall k, has_column t k = true -> has_column t' k = true.
Proof.
  intros t name vals t' H Hwf; unfold setitem in H.
  destruct ((nrows t =? 0)%nat && negb (List.length vals =? 0)%nat) eqn:Hnew.
  - injection H as <-; unfold well_formed, has_column; cbn [nrows columns].
    split; [|split].
    + apply set_column_lengths; [|reflexivity].
      apply forallb_forall; intros c Hc; apply in_map_iff in Hc.
      destruct Hc as [c0 [<- _]]; cbn [snd]; rewrite repeat_length; apply Nat.eqb_refl.
    + rewrite get_set_column_same; reflexivity.
    + intros k Hk.
      destruct (get (set_column _ name vals) k) eqn:Hg; [reflexivity|].
      exfalso; revert Hg; apply set_column_keeps_names, blank_columns_keep_names.
      destruct (get (columns t) k); [discriminate|discriminate Hk].
  - destruct (List.length vals =? nrows t)%nat eqn:Hlen; [|discriminate].
    injection H as <-; unfold well_formed, has_column; cbn [nrows columns].
    apply Nat.eqb_eq in Hlen. split; [|split].
    + apply set_column_lengths; assumption.
    + rewrite get_set_column_same; reflexivity.
    + intros k Hk.
      destruct (get (set_column (columns t) name vals) k) eqn:Hg; [reflexivity|].
      exfalso; revert Hg; apply set_column_keeps_names.
      destruct (get (columns t) k); [discriminate|discriminate Hk].
Qed.

Lemma add_embeddings_keeps_shape :
  forall em methods t t',
    add_embeddings em methods t = Ok t' ->
    well_formed t = true ->
    well_formed t' = true
    /\ (forall m, In m methods ->
                  has_column t' (m ++ "_x") = true /\ has_column t' (m ++ "_y") = true)
    /\ forall k, has_column t k = true -> has_column t' k = true.
Proof.
  intros em methods; induction methods as [|m methods IH]; intros t t' H Hwf.
  - injection H as <-; split; [exact Hwf|]; split; [intros m []|auto].
  - cbn [add_embeddings] in H.
    destruct (getitem em m) as [e|]; [|discriminate]; cbn [Py.bind] in H.
    destruct (setitem t (m ++ "_x") (map CFloat (emb_x e))) as [t1|] eqn:H1;
      [|discriminate]; cbn [Py.bind] in H.
    destruct (setitem t1 (m ++ "_y") (map CFloat (emb_y e))) as [t2|] eqn:H2;
      [|discriminate]; cbn [Py.bind] in H.
    destruct (setitem_keeps_shape _ _ _ _ H1 Hwf) as [Hwf1 [Hx1 Hk1]].
    destruct (setitem_keeps_shape _ _ _ _ H2 Hwf1) as [Hwf2 [Hy2 Hk2]].
    destruct (IH t2 t' H Hwf2) as [Hwf' [Hm' Hk']].
    split; [exact Hwf'|]; split.
    + intros m' [<-|Hm]; [split; apply Hk'; auto|apply Hm'; exact Hm].
    + intros k Hk; apply Hk', Hk2, Hk1, Hk.
Qed.

Lemma add_indicators_keeps_shape :
  forall items t t',
    add_indicators items t = Ok t' ->
    well_formed t = true ->
    well_formed t' = true
    /\ (forall ind, In ind (keys items) -> has_column t' ind = true)
    /\ forall k, has_column t k = true -> has_column t' k = true.
Proof.
  intros items; induction items as [|[ind values] items IH]; intros t t' H Hwf.
  - injection H as <-; split; [exact Hwf|]; split; [intros ind []|auto].
  - cbn [add_indicators] in H.
    destruct (setitem t ind (map number_cell values)) as [t1|] eqn:H1;
      [|discriminate]; cbn [Py.bind] in H.
    destruct (setitem_keeps_shape _ _ _ _ H1 Hwf) as [Hwf1 [Hi1 Hk1]].
    destruct (IH t1 t' H Hwf1) as [Hwf' [Hi' Hk']].
    split; [exact Hwf'|]; split.
    + intros ind' [<-|Hin]; [apply Hk', Hi1|apply Hi'; exact Hin].
    + intros k Hk; apply Hk', Hk1, Hk.
Qed.

Lemma new_frame_shape :
  forall data t,
    new_frame data = Ok t ->
    well_formed t = true
    /\ forall k, In k ["Country"; "Cluster"; "Cluster_Name"] -> has_column t k = true.
Proof.
  intros data t H; unfold new_frame in H.
  destruct (required "countries" (countries data)) as [co|]; [|discriminate].
  destruct (required "clusters" (clusters data)) as [cl|]; [|discriminate].
  cbn [Py.bind] in H.
  destruct (cluster_names data) as [names|]; [|discriminate]; cbn [Py.bind] in H.
  unfold from_dict in H.
  destruct (forallb _ _) eqn:Hall; [|discriminate].
  injection H as <-; split; [exact Hall|].
  intros k [<-|[<-|[<-|[]]]]; reflexivity.
Qed.

(** X1: whenever the table is built, for any document at all, every column
    of it spans the index, and it has the three country columns, the two
    columns of every projection and the column of every indicator. *)
Theorem df_has_every_column :
  forall (data : Document) (t : DataFrame),
    df data = Ok t ->
    well_formed t = true
    /\ (forall k, In k ["Country"; "Cluster"; "Cluster_Name"] -> has_column t k = true)
    /\ (forall m, In m (keys (or_empty (embeddings data))) ->
                  has_column t (m ++ "_x") = true /\ has_column t (m ++ "_y") = true)
    /\ (forall ind, In ind (keys (or_empty (indicators data))) ->
                    has_column t ind = true).
Proof.
  intros data t H; unfold df in H.
  destruct (new_frame data) as [t0|] eqn:H0; [|discriminate]; cbn [Py.bind] in H.
  destruct (embeddings data) as [em|]; [|discriminate]; cbn [required Py.bind] in H.
  destruct (add_embeddings em (keys em) t0) as [t1|] eqn:H1; [|discriminate].
  cbn [Py.bind] in H.
  destruct (new_frame_shape _ _ H0) as [Hwf0 Hbase].
  destruct (add_embeddings_keeps_shape _ _ _ _ H1 Hwf0) as [Hwf1 [Hem Hk1]].
  destruct (add_indicators_keeps_shape _ _ _ H Hwf1) as [Hwf [Hind Hk]].
  split; [exact Hwf|]. split; [intros k Hin; apply Hk, Hk1, Hbase, Hin|].
  split; [|exact Hind].
  intros m Hm; destruct (Hem m Hm); split; apply Hk; assumption.
Qed.

Lemma df_has_every_column_witness :
  well_formed Sample.table_with_country_indicator = true
  /\ (forall k, In k ["Country"; "Cluster"; "Cluster_Name"] ->
                has_column Sample.table_with_country_indicator k = true)
  /\ (forall m, In m (keys (or_empty (embeddings Sample.indicator_called_country))) ->
                has_column Sample.table_with_country_indicator (m ++ "_x") = true
                /\ has_column Sample.table_with_country_indicator (m ++ "_y") = true)
  /\ (forall ind, In ind (keys (or_empty (indicators Sample.indicator_called_country))) ->
                  has_column Sample.table_with_country_indicator ind = true).
Proof.
  apply (df_has_every_column Sample.indicator_called_country Sample.table_with_country_indicator).
  reflexivity.
Defined.

(** ** The other columns of the table *)

Lemma valid_dataset_keys :
  forall data,
    valid_dataset data = true ->
    exists co cl lb em,
      countries data = Some co /\ clusters data = Some cl
      /\ cluster_labels data = Some lb /\ embeddings data = Some em
      /\ List.length cl = List.length co
      /\ forallb (fun i : string * list (option float) =>
                    same_length (List.length co) (snd i))
                 (or_empty (indicators data)) = true.
Proof.
  intros data H; unfold valid_dataset in H.
  destruct (countries data) as [co|]; [|discriminate].
  destruct (clusters data) as [cl|]; [|discriminate].
  destruct (cluster_labels data) as [lb|]; [|discriminate].
  destruct (embeddings data) as [em|]; [|discriminate].
  apply andb_true_iff in H; destruct H as [H Hinds].
  apply andb_true_iff in H; destruct H as [Hcl _].
  exists co, cl, lb, em; repeat split; trivial.
  apply Nat.eqb_eq; exact Hcl.
Qed.

Lemma add_indicators_columns :
  forall (items : dict (list (option float))) (t t' : DataFrame)
         (ind : string) (values : list (option float)),
    well_formed t = true ->
    forallb (fun i : string * list (option float) => same_length (nrows t) (snd i)) items
    = true ->
    unique (keys items) = true ->
    add_indicators items t = Ok t' ->
    get items ind = Some values ->
    get (columns t') ind = Some (map number_cell values).
Proof.
  intros items; induction items as [|[k vals] items IH];
    intros t t' ind values Hwf Hlen Hu Hrun Hget; [discriminate|].
  cbn [forallb snd] in Hlen; apply andb_true_iff in Hlen; destruct Hlen as [Hv Hlen].
  unfold same_length in Hv; apply Nat.eqb_eq in Hv.
  cbn [keys map fst unique] in Hu; apply andb_true_iff in Hu; destruct Hu as [Hfresh Hu].
  destruct (setitem_aligned t k (map number_cell vals) Hwf)
    as [t1 [Hs1 [Hn1 [Hwf1 [Hsame _]]]]]; [rewrite length_map; exact Hv|].
  cbn [add_indicators] in Hrun; rewrite Hs1 in Hrun; cbn [Py.bind] in Hrun.
  cbn [get] in Hget. destruct (String.eqb_spec k ind) as [->|Hne].
  - injection Hget as <-.
    destruct (add_indicators_aligned items t1 Hwf1) as [t2 [Hrun2 [_ [_ Hoth]]]];
      [rewrite Hn1; exact Hlen|].
    rewrite Hrun in Hrun2; injection Hrun2 as <-.
    rewrite Hoth; [exact Hsame|apply negb_true_iff; exact Hfresh].
  - apply (IH t1 t' ind values Hwf1); trivial. rewrite Hn1; exact Hlen.
Qed.

(** The table of a valid, labelled document is the table of its
    projections with the indicators written into it. *)
Lemma df_stages :
  forall (data : Document) (co : list string),
    countries data = Some co ->
    valid_dataset data = true -> labelled data = true ->
    exists t1 t,
      add_indicators (or_empty (indicators data)) t1 = Ok t
      /\ df data = Ok t
      /\ well_formed t1 = true
      /\ nrows t1 = List.length co.
Proof.
  intros data co Hco Hvalid Hlab.
  destruct (valid_dataset_keys data Hvalid)
    as [co' [cl [lb [em [Hco' [Hcl [Hlb [Hem [Hlen Hinds]]]]]]]]].
  rewrite Hco in Hco'; injection Hco' as <-.
  destruct (labelled_cluster_names data Hlab) as [names Hnames].
  pose proof (cluster_names_length data cl names Hcl Hnames) as Hnl.
  set (t0 := {| nrows := List.length co;
                columns := [("Country", map CStr co); ("Cluster", map CInt cl);
                            ("Cluster_Name", map CStr names)] |}).
  assert (H0 : new_frame data = Ok t0).
  { unfold new_frame; rewrite Hco, Hcl, Hnames; cbn [required Py.bind].
    unfold from_dict; cbn [forallb snd]; rewrite !length_map.
    rewrite Hnl, Hlen, Nat.eqb_refl; reflexivity. }
  assert (Hwf0 : well_formed t0 = true).
  { unfold well_formed, t0; cbn [nrows columns forallb snd]; rewrite !length_map.
    rewrite Hnl, Hlen, Nat.eqb_refl; reflexivity. }
  destruct (add_embeddings_aligned em (keys em) t0 Hwf0)
    as [t1 [H1 [Hn1 [Hwf1 _]]]].
  { intros m Hm; destruct (keys_get _ em m Hm) as [e He]; exists e; split; [exact He|].
    unfold valid_dataset in Hvalid; rewrite Hco, Hcl, Hlb, Hem in Hvalid.
    apply andb_true_iff in Hvalid; destruct Hvalid as [Hvalid _].
    apply andb_true_iff in Hvalid; destruct Hvalid as [_ Hemlen].
    rewrite forallb_forall in Hemlen; specialize (Hemlen (m, e) (get_In _ _ _ _ He)).
    cbn [snd] in Hemlen; apply andb_true_iff in Hemlen; destruct Hemlen as [Hx Hy].
    unfold same_length in Hx, Hy; apply Nat.eqb_eq in Hx, Hy; split; assumption. }
  destruct (add_indicators_aligned (or_empty (indicators data)) t1 Hwf1)
    as [t [H2 _]]; [rewrite Hn1; exact Hinds|].
  exists t1, t. split; [exact H2|]. split; [|split; [exact Hwf1|exact Hn1]].
  unfold df; rewrite H0, Hem; cbn [required Py.bind]; rewrite H1; exact H2.
Qed.

(** X2: in the table of a valid document whose cluster ids all have a
    label, the row at index [i] carries under the name of every indicator
    the [i]-th value of that indicator, a [null] as NaN; this holds also for
    an indicator that has the name of another column, since the indicators
    are written last. *)
Theorem df_indicator_columns :
  forall (data : Document) (ind : string) (values : list (option float))
         (i : nat) (v : option float),
    valid_dataset data = true ->
    labelled data = true ->
    unique (keys (or_empty (indicators data))) = true ->
    get (or_empty (indicators data)) ind = Some values ->
    nth_error values i = Some v ->
    exists t r,
      df data = Ok t
      /\ nth_error (rows t) i = Some r
      /\ field r ind = Some (number_cell v).
Proof.
  intros data ind values i v Hvalid Hlab Hu Hget Hv.
  destruct (valid_dataset_keys data Hvalid)
    as [co [cl [lb [em [Hco [Hcl [Hlb [Hem [Hlen Hinds]]]]]]]]].
  destruct (df_stages data co Hco Hvalid Hlab) as [t1 [t [Hrun [Hdf [Hwf1 Hn1]]]]].
  assert (Hcol : get (columns t) ind = Some (map number_cell values)).
  { apply (add_indicators_columns (or_empty (indicators data)) t1 t ind values Hwf1);
      trivial.
    rewrite Hn1; exact Hinds. }
  destruct (add_indicators_keeps_shape _ _ _ Hrun Hwf1) as [Hwf _].
  assert (Hlt : (i < nrows t)%nat).
  { rewrite <- (well_formed_column t ind _ Hwf Hcol), length_map.
    apply nth_error_Some; rewrite Hv; discriminate. }
  destruct (row_field t i ind _ (number_cell v) Hlt Hcol) as [r [Hr Hf]];
    [apply map_nth_error; exact Hv|].
  exists t, r; repeat split; assumption.
Qed.

Lemma df_indicator_columns_witness :
  exists t r,
    df Sample.indicator_called_country = Ok t
    /\ nth_error (rows t) 1 = Some r
    /\ field r "Country" = Some (number_cell None).
Proof.
  apply (df_indicator_columns Sample.indicator_called_country "Country"
           [Some Sample.f7_86; None] 1%nat None); reflexivity.
Defined.

(** X3: in the table of a valid document whose cluster ids all have a
    label, the row at index [i] carries the [i]-th coordinates of every
    projection under [<method>_x] and [<method>_y], unless an indicator has
    that very name. *)
Theorem df_projection_columns :
  forall (data : Document) (em : dict Embedding) (m : string) (e : Embedding)
         (i : nat) (x y : float),
    valid_dataset data = true ->
    labelled data = true ->
    indicators_avoid [m ++ "_x"; m ++ "_y"] data = true ->
    embeddings data = Some em ->
    get em m = Some e ->
    nth_error (emb_x e) i = Some x ->
    nth_error (emb_y e) i = Some y ->
    exists t r,
      df data = Ok t
      /\ nth_error (rows t) i = Some r
      /\ field r (m ++ "_x") = Some (CFloat x)
      /\ field r (m ++ "_y") = Some (CFloat y).
Proof.
  intros data em m e i x y Hvalid Hlab Havoid Hem He Hx Hy.
  destruct (valid_dataset_keys data Hvalid)
    as [co [cl [lb [em' [Hco [Hcl [Hlb [Hem' _]]]]]]]].
  rewrite Hem in Hem'; injection Hem' as <-.
  destruct (df_aligned data co cl em Hco Hcl Hem Hvalid Hlab)
    as [t [names [Hdf [_ [Hn [Hwf [_ Hproj]]]]]]].
  destruct (Hproj m e He) as [Hcx Hcy].
  specialize (Hcx (avoided_is_no_key _ data _ Havoid (or_introl eq_refl))).
  specialize (Hcy (avoided_is_no_key _ data _ Havoid (or_intror (or_introl eq_refl)))).
  assert (Hlt : (i < nrows t)%nat).
  { rewrite <- (well_formed_column t _ _ Hwf Hcx), length_map.
    apply nth_error_Some; rewrite Hx; discriminate. }
  destruct (row_field t i _ _ (CFloat x) Hlt Hcx (map_nth_error CFloat i _ Hx))
    as [r [Hr Hfx]].
  destruct (row_field t i _ _ (CFloat y) Hlt Hcy (map_nth_error CFloat i _ Hy))
    as [r' [Hr' Hfy]].
  rewrite Hr in Hr'; injection Hr' as <-.
  exists t, r; repeat split; assumption.
Qed.

Lemma df_projection_columns_witness :
  exists t r,
    df Sample.three_countries = Ok t
    /\ nth_error (rows t) 2 = Some r
    /\ field r ("PCA" ++ "_x") = Some (CFloat (Sample.of_int 3))
    /\ field r ("PCA" ++ "_y") = Some (CFloat (Sample.of_int 6)).
Proof.
  apply (df_projection_columns Sample.three_countries [("PCA", Sample.pca)] "PCA"
           Sample.pca 2%nat (Sample.of_int 3) (Sample.of_int 6)); reflexivity.
Defined.

(** ** A sequence of the wrong length *)

Lemma setitem_wrong_length :
  forall t name vals,
    (0 < nrows t)%nat -> List.length vals <> nrows t ->
    exists msg, setitem t name vals = Raise (ValueError msg).
Proof.
  intros t name vals Hpos Hlen; unfold setitem.
  destruct (nrows t =? 0)%nat eqn:H0; [apply Nat.eqb_eq in H0; lia|].
  apply Nat.eqb_neq in Hlen; rewrite Hlen; eexists; reflexivity.
Qed.

Lemma add_embeddings_result :
  forall (em : dict Embedding) (methods : list string) (t : DataFrame),
    well_formed t = true -> (0 < nrows t)%nat ->
    (forall m, In m methods -> exists e, get em m = Some e) ->
    if existsb (bad_projection (nrows t) em) methods
    then exists msg, add_embeddings em methods t = Raise (ValueError msg)
    else exists t', add_embeddings em methods t = Ok t'
                    /\ nrows t' = nrows t /\ well_formed t' = true.
Proof.
  intros em methods; induction methods as [|m methods IH]; intros t Hwf Hpos Hem.
  - exists t; repeat split; trivial.
  - destruct (Hem m (or_introl eq_refl)) as [e He].
    cbn [existsb add_embeddings]; unfold bad_projection at 1, getitem; rewrite He.
    cbn [Py.bind]; unfold same_length.
    destruct (List.length (emb_x e) =? nrows t)%nat eqn:Hx; cbn [andb negb orb].
    + apply Nat.eqb_eq in Hx.
      destruct (setitem_aligned t (m ++ "_x") (map CFloat (emb_x e)) Hwf)
        as [t1 [Hs1 [Hn1 [Hwf1 _]]]]; [rewrite length_map; exact Hx|].
      rewrite Hs1; cbn [Py.bind].
      destruct (List.length (emb_y e) =? nrows t)%nat eqn:Hy; cbn [negb orb].
      * apply Nat.eqb_eq in Hy.
        destruct (setitem_aligned t1 (m ++ "_y") (map CFloat (emb_y e)) Hwf1)
          as [t2 [Hs2 [Hn2 [Hwf2 _]]]]; [rewrite length_map; lia|].
        rewrite Hs2; cbn [Py.bind].
        specialize (IH t2 Hwf2 ltac:(lia) (fun m' Hm' => Hem m' (or_intror Hm'))).
        replace (nrows t2) with (nrows t) in IH by lia. exact IH.
      * apply Nat.eqb_neq in Hy.
        destruct (setitem_wrong_length t1 (m ++ "_y") (map CFloat (emb_y e)))
          as [msg Hmsg]; [lia|rewrite length_map; lia|].
        rewrite Hmsg; exists msg; reflexivity.
    + apply Nat.eqb_neq in Hx.
      destruct (setitem_wrong_length t (m ++ "_x") (map CFloat (emb_x e)))
        as [msg Hmsg]; [lia|rewrite length_map; lia|].
      rewrite Hmsg; exists msg; reflexivity.
Qed.

Lemma add_indicators_result :
  forall (items : dict (list (option float))) (t : DataFrame),
    well_formed t = true -> (0 < nrows t)%nat ->
    if existsb (fun i : string * list (option float) =>
                  negb (same_length (nrows t) (snd i))) items
    then exists msg, add_indicators items t = Raise (ValueError msg)
    else exists t', add_indicators items t = Ok t'.
Proof.
  intros items; induction items as [|[ind values] items IH]; intros t Hwf Hpos.
  - exists t; reflexivity.
  - cbn [existsb add_indicators snd]; unfold same_length.
    destruct (List.length values =? nrows t)%nat eqn:Hv; cbn [negb orb].
    + apply Nat.eqb_eq in Hv.
      destruct (setitem_aligned t ind (map number_cell values) Hwf)
        as [t1 [Hs1 [Hn1 [Hwf1 _]]]]; [rewrite length_map; exact Hv|].
      rewrite Hs1; cbn [Py.bind].
      specialize (IH t1 Hwf1 ltac:(lia)). rewrite Hn1 in IH; exact IH.
    + apply Nat.eqb_neq in Hv.
      destruct (setitem_wrong_length t ind (map number_cell values))
        as [msg Hmsg]; [lia|rewrite length_map; lia|].
      rewrite Hmsg; exists msg; reflexivity.
Qed.

(** X4: when the document has at least one country, as many cluster ids as
    countries and a label for each of them, but a projection or an indicator
    with a sequence of another length, the table is not built: the
    assignment of that column raises the [ValueError] of pandas. *)
Theorem df_misaligned_sequence_raises :
  forall (data : Document) (co : list string) (cl : list Z) (em : dict Embedding),
    countries data = Some co ->
    clusters data = Some cl ->
    embeddings data = Some em ->
    co <> [] ->
    List.length cl = List.length co ->
    labelled data = true ->
    misaligned data = true ->
    exists msg, df data = Raise (ValueError msg).
Proof.
  intros data co cl em Hco Hcl Hem Hne Hlen Hlab Hbad.
  destruct (labelled_cluster_names data Hlab) as [names Hnames].
  pose proof (cluster_names_length data cl names Hcl Hnames) as Hnl.
  set (t0 := {| nrows := List.length co;
                columns := [("Country", map CStr co); ("Cluster", map CInt cl);
                            ("Cluster_Name", map CStr names)] |}).
  assert (H0 : new_frame data = Ok t0).
  { unfold new_frame; rewrite Hco, Hcl, Hnames; cbn [required Py.bind].
    unfold from_dict; cbn [forallb snd]; rewrite !length_map.
    rewrite Hnl, Hlen, Nat.eqb_refl; reflexivity. }
  assert (Hwf0 : well_formed t0 = true).
  { unfold well_formed, t0; cbn [nrows columns forallb snd]; rewrite !length_map.
    rewrite Hnl, Hlen, Nat.eqb_refl; reflexivity. }
  assert (Hpos : (0 < nrows t0)%nat)
    by (cbn [nrows t0]; destruct co; [contradiction|simpl; lia]).
  unfold df; rewrite H0, Hem; cbn [required Py.bind].
  unfold misaligned in Hbad; rewrite Hco, Hem in Hbad; cbn [or_empty] in Hbad.
  pose proof (add_embeddings_result em (keys em) t0 Hwf0 Hpos (keys_get _ em)) as H1.
  cbn [nrows t0] in H1.
  destruct (existsb (bad_projection (List.length co) em) (keys em)).
  - destruct H1 as [msg H1]; rewrite H1; exists msg; reflexivity.
  - destruct H1 as [t1 [H1 [Hn1 Hwf1]]]; rewrite H1; cbn [Py.bind].
    assert (Hpos1 : (0 < nrows t1)%nat) by (rewrite Hn1; exact Hpos).
    pose proof (add_indicators_result (or_empty (indicators data)) t1 Hwf1 Hpos1) as H2.
    rewrite Hn1 in H2; cbn [nrows t0] in H2.
    cbn [orb] in Hbad; rewrite Hbad in H2; exact H2.
Qed.

Lemma df_misaligned_sequence_raises_witness :
  exists msg, df Sample.short_indicator = Raise (ValueError msg).
Proof.
  apply (df_misaligned_sequence_raises Sample.short_indicator
           ["Norway"; "Chad"; "Peru"] [0; 1; 2]%Z [("PCA", Sample.pca)]);
    try reflexivity.
  discriminate.
Defined.

(** ** Filtering twice *)

Lemma keep_length :
  forall (A B : Type) (m : list bool) (l : list A) (l' : list B),
    List.length l = List.length m -> List.length l' = List.length m ->
    List.length (keep m l) = List.length (keep m l').
Proof.
  intros A B m; induction m as [|b m IH]; intros l l' Hl Hl'.
  - destruct l, l'; reflexivity.
  - destruct l as [|a l]; [discriminate|]; destruct l' as [|a' l']; [discriminate|].
    simpl in *; destruct b; simpl; rewrite (IH l l'); auto.
Qed.

Lemma select_well_formed :
  forall t m,
    well_formed t = true -> List.length m = nrows t -> well_formed (select t m) = true.
Proof.
  intros t m Hwf Hm; unfold well_formed, select; cbn [nrows columns].
  apply forallb_forall; intros c Hc; apply in_map_iff in Hc.
  destruct Hc as [[k col] [<- Hin]]; cbn [fst snd]; apply Nat.eqb_eq.
  pose proof (well_formed_columns t Hwf) as Hall; rewrite Forall_forall in Hall.
  specialize (Hall _ Hin); cbn [snd] in Hall.
  apply keep_length; [lia|rewrite length_seq; lia].
Qed.

Lemma keep_isin_all_shown :
  forall (shown : list Z) (col : list cell),
    Forall (fun b => b = true) (isin (keep (isin col shown) col) shown).
Proof.
  intros shown col; induction col as [|c col IH]; [constructor|].
  cbn [isin map keep]; destruct (cell_in shown c) eqn:Hc.
  - cbn [map]; constructor; [exact Hc|exact IH].
  - exact IH.
Qed.

Lemma filter_twice :
  forall (A : Type) (f g : A -> bool) (l : list A),
    filter g (filter f l) = filter (fun a => f a && g a) l.
Proof.
  intros A f g l; induction l as [|a l IH]; [reflexivity|].
  cbn [filter]; destruct (f a); cbn [andb filter]; [destruct (g a)|]; rewrite IH;
    reflexivity.
Qed.

(** X5: the cluster filter composes and changes nothing but the rows.
    Filtering the filtered table by a second list of ids keeps the rows that
    pass both; filtering it again by the same list gives it back as it is;
    and the filtered table has the columns of the table, in their order,
    and as many rows as the table has rows of a shown cluster. *)
Theorem df_filtered_composes :
  forall (t : DataFrame) (first second : list Z) (col : list cell),
    well_formed t = true ->
    get (columns t) "Cluster" = Some col ->
    exists once twice,
      df_filtered t first = Ok once
      /\ df_filtered once second = Ok twice
      /\ rows twice
         = filter (fun r => row_shown first r && row_shown second r) (rows t)
      /\ df_filtered once first = Ok once
      /\ keys (columns once) = keys (columns t)
      /\ nrows once = List.length (filter (row_shown first) (rows t)).
Proof.
  intros t first second col Hwf Hcol.
  pose proof (well_formed_column t "Cluster" col Hwf Hcol) as Hlen.
  destruct (df_filtered_rows t first col Hwf Hcol) as [Hrun Hrows].
  set (once := select t (isin col first)) in *.
  assert (Hwf1 : well_formed once = true)
    by (apply select_well_formed; [exact Hwf|unfold isin; rewrite length_map; exact Hlen]).
  assert (Hcol1 : get (columns once) "Cluster" = Some (keep (isin col first) col)).
  { unfold once, select; cbn [columns].
    rewrite (get_map_column (keep (isin col first))), Hcol; reflexivity. }
  destruct (df_filtered_rows once second _ Hwf1 Hcol1) as [Hrun2 Hrows2].
  destruct (df_filtered_rows once first _ Hwf1 Hcol1) as [Hrun1 _].
  exists once, (select once (isin (keep (isin col first) col) second)).
  split; [exact Hrun|]. split; [exact Hrun2|]. split; [|split; [|split]].
  - rewrite Hrows2, Hrows; apply filter_twice.
  - rewrite Hrun1; f_equal. apply select_everything; [exact Hwf1| |].
    + unfold isin at 1; rewrite length_map.
      apply (well_formed_column once "Cluster" _ Hwf1 Hcol1).
    + apply keep_isin_all_shown.
  - unfold once, select, keys; cbn [columns]; rewrite map_map; reflexivity.
  - rewrite <- Hrows; unfold rows; rewrite rows_of_length; reflexivity.
Qed.

Lemma df_filtered_composes_witness :
  exists once twice,
    df_filtered Sample.small_table [0; 1]%Z = Ok once
    /\ df_filtered once [1; 2]%Z = Ok twice
    /\ rows twice
       = filter (fun r => row_shown [0; 1]%Z r && row_shown [1; 2]%Z r)
                (rows Sample.small_table)
    /\ df_filtered once [0; 1]%Z = Ok once
    /\ keys (columns once) = keys (columns Sample.small_table)
    /\ nrows once = List.length (filter (row_shown [0; 1]%Z) (rows Sample.small_table)).
Proof.
  apply (df_filtered_composes Sample.small_table [0; 1]%Z [1; 2]%Z
           [CInt 0; CInt 1; CInt 0]); reflexivity.
Defined.

(** ** The toggles of the side bar *)

Ltac read_digit :=
  cbn [NilEmpty.string_of_uint Pos.of_uint_acc Pos.of_uint digits_value];
  match goal with
  | |- context [digit_val ?c] =>
      let v := eval vm_compute in (digit_val c) in change (digit_val c) with v
  end.

Lemma digits_value_acc :
  forall (d : Decimal.uint) (acc : positive),
    digits_value (Z.pos acc) true (NilEmpty.string_of_uint d)
    = Some (Z.pos (Pos.of_uint_acc d acc)).
Proof.
  intros d; induction d; intros acc; [reflexivity| | | | | | | | | |];
    read_digit; rewrite <- IHd; f_equal; lia.
Qed.

Lemma digits_value_uint :
  forall (d : Decimal.uint) (after_digit : bool),
    after_digit = true \/ d <> Decimal.Nil ->
    digits_value 0 after_digit (NilEmpty.string_of_uint d)
    = Some (Z.of_N (Pos.of_uint d)).
Proof.
  intros d; induction d; intros b Hb.
  - destruct Hb as [->|Hb]; [reflexivity|contradiction].
  - read_digit; apply IHd; left; reflexivity.
  - read_digit; apply (digits_value_acc d 1).
  - read_digit; apply (digits_value_acc d 2).
  - read_digit; apply (digits_value_acc d 3).
  - read_digit; apply (digits_value_acc d 4).
  - read_digit; apply (digits_value_acc d 5).
  - read_digit; apply (digits_value_acc d 6).
  - read_digit; apply (digits_value_acc d 7).
  - read_digit; apply (digits_value_acc d 8).
  - read_digit; apply (digits_value_acc d 9).
Qed.

Lemma reverse_reverse : forall s : string, reverse (reverse s) = s.
Proof.
  intros s; unfold reverse.
  rewrite list_ascii_of_string_of_list_ascii, rev_involutive.
  apply string_of_list_ascii_of_string.
Qed.

Lemma lstrip_no_space :
  forall s : string,
    forallb (fun c => negb (is_space c)) (list_ascii_of_string s) = true ->
    lstrip s = s.
Proof.
  intros [|c s] H; [reflexivity|]. cbn [list_ascii_of_string forallb] in H.
  apply andb_true_iff in H; destruct H as [Hc _]; apply negb_true_iff in Hc.
  cbn [lstrip]; rewrite Hc; reflexivity.
Qed.

Lemma strip_no_space :
  forall s : string,
    forallb (fun c => negb (is_space c)) (list_ascii_of_string s) = true ->
    strip s = s.
Proof.
  intros s H; unfold strip. rewrite (lstrip_no_space s H).
  rewrite lstrip_no_space; [apply reverse_reverse|].
  unfold reverse; rewrite list_ascii_of_string_of_list_ascii.
  apply forallb_forall; intros c Hc; apply in_rev in Hc.
  rewrite forallb_forall in H; apply H; exact Hc.
Qed.

Lemma digits_have_no_space :
  forall d : Decimal.uint,
    forallb (fun c => negb (is_space c))
            (list_ascii_of_string (NilEmpty.string_of_uint d)) = true.
Proof. intros d; induction d; simpl; trivial. Qed.

Lemma int_of_digits :
  forall (d : Decimal.uint) (negative : bool),
    d <> Decimal.Nil ->
    int ((if negative then "-" else "") ++ NilEmpty.string_of_uint d)
    = Ok (if negative then - Z.of_N (Pos.of_uint d) else Z.of_N (Pos.of_uint d))%Z.
Proof.
  intros d negative Hd; unfold int.
  pose proof (digits_value_uint d false (or_intror Hd)) as Hv.
  rewrite strip_no_space.
  - destruct negative.
    + change ("-" ++ NilEmpty.string_of_uint d)
        with (String "-" (NilEmpty.string_of_uint d)).
      cbv iota beta. rewrite Hv; reflexivity.
    + change ("" ++ NilEmpty.string_of_uint d) with (NilEmpty.string_of_uint d).
      destruct d; try contradiction; cbn [NilEmpty.string_of_uint] in *;
        cbv iota beta; rewrite Hv; reflexivity.
  - pose proof (digits_have_no_space d) as Hs.
    destruct negative; [|exact Hs].
    change ("-" ++ NilEmpty.string_of_uint d)
      with (String "-" (NilEmpty.string_of_uint d)).
    cbn [list_ascii_of_string forallb]; rewrite Hs; reflexivity.
Qed.

(** [int] reads back what [str] writes. *)
Lemma int_str : forall z : Z, int (str z) = Ok z.
Proof.
  intros [|p|p]; [reflexivity| |];
    pose proof (DecimalPos.Unsigned.of_to p) as Hp;
    assert (Hd : Pos.to_uint p <> Decimal.Nil)
      by (intros E; rewrite E in Hp; discriminate).
  - pose proof (int_of_digits (Pos.to_uint p) false Hd) as H.
    rewrite Hp in H; cbn [append] in H.
    unfold str; cbn [Z.to_int NilZero.string_of_int]; unfold NilZero.string_of_uint.
    destruct (Pos.to_uint p); [contradiction| | | | | | | | | |]; exact H.
  - pose proof (int_of_digits (Pos.to_uint p) true Hd) as H.
    rewrite Hp in H.
    unfold str; cbn [Z.to_int NilZero.string_of_int]; unfold NilZero.string_of_uint.
    destruct (Pos.to_uint p); [contradiction| | | | | | | | | |]; exact H.
Qed.

Lemma iset_fresh :
  forall (V : Type) (d : idict V) (k : Z) (v : V),
    ~ In k (map fst d) -> iset d k v = (d ++ [(k, v)])%list.
Proof.
  intros V d k v; induction d as [|[k' v'] d IH]; intros H; [reflexivity|].
  cbn [iset map fst In] in *. destruct (Z.eqb_spec k' k) as [->|Hne].
  - exfalso; apply H; left; reflexivity.
  - rewrite IH; [reflexivity|intros Hin; apply H; right; exact Hin].
Qed.

Lemma iset_keys :
  forall (V : Type) (d : idict V) (k : Z) (v : V),
    map fst (iset d k v)
    = if existsb (Z.eqb k) (map fst d) then map fst d else (map fst d ++ [k])%list.
Proof.
  intros V d k v; induction d as [|[k' v'] d IH]; [reflexivity|].
  cbn [iset map fst existsb]. rewrite (Z.eqb_sym k k').
  destruct (Z.eqb k' k); cbn [orb map fst]; [reflexivity|].
  rewrite IH; destruct (existsb (Z.eqb k) (map fst d)); reflexivity.
Qed.

Lemma iset_keeps_keys_apart :
  forall (V : Type) (d : idict V) (k : Z) (v : V),
    NoDup (map fst d) -> NoDup (map fst (iset d k v)).
Proof.
  intros V d k v H; rewrite iset_keys.
  destruct (existsb (Z.eqb k) (map fst d)) eqn:E; [exact H|].
  apply NoDup_app; [exact H|constructor; [intros []|constructor]|].
  intros z Hz [Hk|[]]; subst z.
  assert (Hex : existsb (Z.eqb k) (map fst d) = true)
    by (apply existsb_exists; exists k; split; [exact Hz|apply Z.eqb_refl]).
  rewrite Hex in E; discriminate.
Qed.

Lemma bind_checkbox :
  forall (B : Type) (label key : string) (k : bool -> App B) (s : Session),
    Streamlit.bind (checkbox label key) k s
    = (st_checkbox label key :: fst (k (checked s key) s), snd (k (checked s key) s)).
Proof.
  intros; unfold Streamlit.bind, checkbox; destruct (k (checked s key) s); reflexivity.
Qed.

Lemma show_clusters_from :
  forall (named : list (Z * string)) (acc : idict bool) (s : Session),
    NoDup (map fst acc ++ map fst named) ->
    show_clusters (map (fun p : Z * string => (str (fst p), snd p)) named) acc s
    = (map (fun p : Z * string => st_checkbox (snd p) ("c" ++ str (fst p))) named,
       Done (acc ++ map (fun p : Z * string =>
                           (fst p, checked s ("c" ++ str (fst p)))) named)%list).
Proof.
  intros named; induction named as [|[z label] named IH]; intros acc s Hno.
  - cbn [map show_clusters]; unfold ret; rewrite app_nil_r; reflexivity.
  - cbn [map fst snd show_clusters]. rewrite int_str, bind_lift_ok, bind_checkbox.
    cbn [map fst] in Hno.
    rewrite iset_fresh.
    + rewrite IH.
      * cbn [fst snd]; rewrite <- app_assoc; reflexivity.
      * rewrite map_app, <- app_assoc; exact Hno.
    + apply NoDup_remove_2 in Hno. intros Hin; apply Hno, in_or_app; left; exact Hin.
Qed.

(** X6: when the labels of the document are keyed by the decimal form of
    different cluster ids, the side bar shows one check box per label, in
    the order of the document, keeps the state of each box under its
    cluster id, and the ids it hands to the filter are those whose box is
    checked, in that order. *)
Theorem show_clusters_of_id_labels :
  forall (named : list (Z * string)) (s : Session),
    NoDup (map fst named) ->
    exists show,
      show_clusters (map (fun p : Z * string => (str (fst p), snd p)) named) [] s
      = (map (fun p : Z * string => st_checkbox (snd p) ("c" ++ str (fst p))) named,
         Done show)
      /\ show = map (fun p : Z * string => (fst p, checked s ("c" ++ str (fst p)))) named
      /\ visible show
         = filter (fun c => checked s ("c" ++ str c)) (map fst named).
Proof.
  intros named s Hno; eexists; split; [apply (show_clusters_from named [] s Hno)|].
  split; [reflexivity|]. cbn [app]; unfold visible.
  clear Hno; induction named as [|[z label] named IH]; [reflexivity|].
  cbn [map filter fst snd]; destruct (checked s ("c" ++ str z));
    cbn [map fst]; rewrite IH; reflexivity.
Qed.

Lemma show_clusters_of_id_labels_witness :
  exists show,
    show_clusters
      (map (fun p : Z * string => (str (fst p), snd p))
           [(0, "Developed Nations"); (1, "Least Developed"); (7, "Other")]%Z)
      [] Sample.chad_hidden
    = (map (fun p : Z * string => st_checkbox (snd p) ("c" ++ str (fst p)))
           [(0, "Developed Nations"); (1, "Least Developed"); (7, "Other")]%Z,
       Done show)
    /\ show = map (fun p : Z * string =>
                     (fst p, checked Sample.chad_hidden ("c" ++ str (fst p))))
                  [(0, "Developed Nations"); (1, "Least Developed"); (7, "Other")]%Z
    /\ visible show
       = filter (fun c => checked Sample.chad_hidden ("c" ++ str c))
                (map fst [(0, "Developed Nations"); (1, "Least Developed");
                          (7, "Other")]%Z).
Proof.
  apply (show_clusters_of_id_labels
           [(0, "Developed Nations"); (1, "Least Developed"); (7, "Other")]%Z
           Sample.chad_hidden).
  repeat constructor; simpl; intuition discriminate.
Defined.

(** X7: a label whose key is ASCII text but not an integer literal stops
    the side bar.  The check boxes of the labels before it have been shown,
    the conversion of the key raises [ValueError], and no toggle is handed
    on. *)
Theorem show_clusters_bad_key :
  forall (before after : dict string) (i label : string) (acc : idict bool)
         (s : Session),
    Forall reads_as_int before ->
    is_ascii i = true ->
    (forall z, int i <> Ok z) ->
    exists msg,
      show_clusters (before ++ (i, label) :: after)%list acc s
      = (map (fun kv : string * string => st_checkbox (snd kv) ("c" ++ fst kv)) before,
         Failed (ValueError msg)).
Proof.
  intros before after i label; induction before as [|[k l] before IH];
    intros acc s Hok Hascii Hbad.
  - cbn [app map show_clusters]. unfold int in *.
    destruct (match strip i with
              | String "+" t => digits_value 0 false t
              | String "-" t => option_map Z.opp (digits_value 0 false t)
              | t => digits_value 0 false t
              end) as [z|]; [exfalso; apply (Hbad z); reflexivity|].
    eexists; reflexivity.
  - inversion Hok as [|kv rest [z Hz] Hrest]; subst; cbn [fst] in Hz.
    cbn [app map fst snd show_clusters]. rewrite Hz, bind_lift_ok, bind_checkbox.
    destruct (IH (iset acc z (checked s ("c" ++ k))) s Hrest Hascii Hbad) as [msg ->].
    exists msg; reflexivity.
Qed.

Lemma show_clusters_bad_key_witness :
  exists msg,
    show_clusters
      ([(" 0", "Developed Nations")] ++ ("1.0", "North") :: [("2", "South")])%list
      [] Sample.everything_shown
    = (map (fun kv : string * string => st_checkbox (snd kv) ("c" ++ fst kv))
           [(" 0", "Developed Nations")],
       Failed (ValueError msg)).
Proof.
  apply (show_clusters_bad_key [(" 0", "Developed Nations")] [("2", "South")]
           "1.0" "North" [] Sample.everything_shown).
  - constructor; [exists 0%Z; reflexivity|constructor].
  - reflexivity.
  - intros z H; vm_compute in H; discriminate H.
Defined.

Lemma show_clusters_keys_apart :
  forall (labels : dict string) (acc : idict bool) (s : Session)
         (shown : list event) (show : idict bool),
    NoDup (map fst acc) ->
    show_clusters labels acc s = (shown, Done show) ->
    NoDup (map fst show).
Proof.
  intros labels; induction labels as [|[i label] labels IH];
    intros acc s shown show Hno Hrun.
  - cbn [show_clusters] in Hrun; unfold ret in Hrun; injection Hrun as _ <-; exact Hno.
  - cbn [show_clusters] in Hrun. destruct (int i) as [z|e].
    + rewrite bind_lift_ok, bind_checkbox in Hrun.
      destruct (show_clusters labels (iset acc z (checked s ("c" ++ i))) s)
        as [shown' o] eqn:Hrest.
      cbn [fst snd] in Hrun; injection Hrun as _ ->.
      apply (IH _ s shown' show (iset_keeps_keys_apart _ acc z _ Hno) Hrest).
    + rewrite bind_lift_raise in Hrun; discriminate.
Qed.

Lemma visible_of_toggles :
  forall (show : idict bool) (z : Z),
    NoDup (map fst show) -> (In z (visible show) <-> iget show z = Some true).
Proof.
  intros show z; induction show as [|[k b] show IH]; intros Hno.
  - split; [intros []|discriminate].
  - inversion Hno as [|k' l Hfresh Hno']; subst.
    unfold visible in *; cbn [filter snd iget].
    destruct (Z.eqb_spec k z) as [->|Hne].
    + destruct b; cbn [map fst In]; split.
      * reflexivity.
      * left; reflexivity.
      * intros Hin; exfalso; apply Hfresh.
        apply in_map_iff in Hin; destruct Hin as [[k' b'] [<- Hin]].
        apply filter_In in Hin; destruct Hin as [Hin _].
        apply in_map_iff; exists (k', b'); split; [reflexivity|exact Hin].
      * discriminate.
    + rewrite <- (IH Hno'). destruct b; cbn [map fst In]; [|reflexivity].
      split; [intros [H|H]; [contradiction|exact H]|right; assumption].
Qed.

Lemma iget_iset_same :
  forall (V : Type) (d : idict V) (k : Z) (v : V), iget (iset d k v) k = Some v.
Proof.
  intros V d k v; induction d as [|[k' v'] d IH]; cbn [iset iget].
  - rewrite Z.eqb_refl; reflexivity.
  - destruct (Z.eqb k' k) eqn:E; cbn [iget]; rewrite E; [reflexivity|exact IH].
Qed.

Lemma iget_iset_other :
  forall (V : Type) (d : idict V) (k k' : Z) (v : V),
    k <> k' -> iget (iset d k v) k' = iget d k'.
Proof.
  intros V d k k' v Hne; induction d as [|[k0 v0] d IH]; cbn [iset iget].
  - apply Z.eqb_neq in Hne; rewrite Hne; reflexivity.
  - destruct (Z.eqb_spec k0 k) as [->|H0]; cbn [iget].
    + apply Z.eqb_neq in Hne; rewrite Hne; reflexivity.
    + rewrite IH; reflexivity.
Qed.

Lemma iset_key_In :
  forall (V : Type) (d : idict V) (k z : Z) (v : V),
    In z (map fst (iset d k v)) <-> z = k \/ In z (map fst d).
Proof.
  intros V d k z v; rewrite iset_keys.
  destruct (existsb (Z.eqb k) (map fst d)) eqn:E.
  - apply existsb_exists in E; destruct E as [k' [Hk' Heq]].
    apply Z.eqb_eq in Heq; subst k'.
    split; [intros H; right; exact H|intros [->|H]; assumption].
  - rewrite in_app_iff; cbn [In]; split.
    + intros [H|[H|[]]]; [right; exact H|left; symmetry; exact H].
    + intros [->|H]; [right; left; reflexivity|left; exact H].
Qed.

(** What the toggles hold when the comprehension is through: the keys it
    began with and the ids read from the label keys; under an id, the state
    of the box of the last label whose key reads as that id. *)
Lemma show_clusters_reads :
  forall (labels : dict string) (acc : idict bool) (s : Session)
         (shown : list event) (show : idict bool),
    show_clusters labels acc s = (shown, Done show) ->
    (forall z, In z (map fst show)
               <-> In z (map fst acc)
                   \/ exists i label, In (i, label) labels /\ int i = Ok z)
    /\ (forall z, (forall kv, In kv labels -> int (fst kv) <> Ok z) ->
                  iget show z = iget acc z)
    /\ (forall before i label after z,
           labels = (before ++ (i, label) :: after)%list ->
           int i = Ok z ->
           (forall kv, In kv after -> int (fst kv) <> Ok z) ->
           iget show z = Some (checked s ("c" ++ i))).
Proof.
  intros labels; induction labels as [|[k l] labels IH];
    intros acc s shown show Hrun.
  - cbn [show_clusters] in Hrun; unfold ret in Hrun; injection Hrun as _ <-.
    split; [|split].
    + intros z; split; [intros H; left; exact H|].
      intros [H|[i [label [[] _]]]]; exact H.
    + reflexivity.
    + intros before i label after z H; destruct before; discriminate H.
  - cbn [show_clusters] in Hrun. destruct (int k) as [zk|e] eqn:Hk;
      [|rewrite bind_lift_raise in Hrun; discriminate].
    rewrite bind_lift_ok, bind_checkbox in Hrun.
    destruct (show_clusters labels (iset acc zk (checked s ("c" ++ k))) s)
      as [shown' o] eqn:Hrest.
    cbn [fst snd] in Hrun; injection Hrun as _ ->.
    destruct (IH _ s shown' show Hrest) as [Hkeys [Hkept Hlast]].
    split; [|split].
    + intros z; rewrite Hkeys, iset_key_In; split.
      * intros [[->|H]|[i [label [Hin Hi]]]].
        -- right; exists k, l; split; [left; reflexivity|exact Hk].
        -- left; exact H.
        -- right; exists i, label; split; [right; exact Hin|exact Hi].
      * intros [H|[i [label [[Heq|Hin] Hi]]]].
        -- left; right; exact H.
        -- injection Heq as <- <-. left; left; congruence.
        -- right; exists i, label; split; assumption.
    + intros z Hnone. rewrite Hkept by (intros kv Hkv; apply Hnone; right; exact Hkv).
      apply iget_iset_other. intros ->. apply (Hnone (k, l)); [left; reflexivity|exact Hk].
    + intros before i label after z Heq Hi Hafter. destruct before as [|b before].
      * cbn [app] in Heq; injection Heq as <- <- <-.
        rewrite Hkept by exact Hafter.
        assert (zk = z) by congruence; subst zk. apply iget_iset_same.
      * cbn [app] in Heq; injection Heq as _ Heq.
        apply (Hlast before i label after z Heq Hi Hafter).
Qed.

(** X8: whatever the label keys are, when the side bar completes, the
    toggles it hands on hold exactly the ids read from the label keys, each
    once; the toggle of an id is the state of the check box of the last
    label whose key reads as that id; and the ids given to the filter are
    exactly those whose toggle is on, each once. *)
Theorem show_clusters_toggles_once :
  forall (labels : dict string) (s : Session) (shown : list event)
         (show : idict bool),
    show_clusters labels [] s = (shown, Done show) ->
    NoDup (map fst show)
    /\ (forall z, In z (map fst show)
                  <-> exists i label, In (i, label) labels /\ int i = Ok z)
    /\ (forall before i label after z,
           labels = (before ++ (i, label) :: after)%list ->
           int i = Ok z ->
           (forall kv, In kv after -> int (fst kv) <> Ok z) ->
           iget show z = Some (checked s ("c" ++ i)))
    /\ NoDup (visible show)
    /\ forall z, In z (visible show) <-> iget show z = Some true.
Proof.
  intros labels s shown show Hrun.
  assert (Hno : NoDup (map fst show))
    by (apply (show_clusters_keys_apart labels [] s shown show); [constructor|exact Hrun]).
  destruct (show_clusters_reads labels [] s shown show Hrun) as [Hkeys [_ Hlast]].
  split; [exact Hno|]. split; [|split; [exact Hlast|]].
  { intros z; rewrite Hkeys; cbn [map In]; tauto. }
  split; [|intros z; apply visible_of_toggles; exact Hno].
  unfold visible; clear Hrun Hkeys Hlast. induction show as [|[k b] show IH]; [constructor|].
  inversion Hno as [|k' l Hfresh Hno']; subst.
  cbn [filter snd]; destruct b; cbn [map fst]; [|apply IH; exact Hno'].
  constructor; [|apply IH; exact Hno'].
  intros Hin; apply Hfresh.
  apply in_map_iff in Hin; destruct Hin as [[k' b'] [<- Hin]].
  apply filter_In in Hin; destruct Hin as [Hin _].
  apply in_map_iff; exists (k', b'); split; [reflexivity|exact Hin].
Qed.

Lemma show_clusters_toggles_once_witness :
  NoDup (map fst [(1, true); (2, false)]%Z)
  /\ (forall z, In z (map fst [(1, true); (2, false)]%Z)
                <-> exists i label,
                      In (i, label) [("1", "one"); ("2", "two"); (" 01 ", "one again")]
                      /\ int i = Ok z)
  /\ (forall before i label after z,
         [("1", "one"); ("2", "two"); (" 01 ", "one again")]
         = (before ++ (i, label) :: after)%list ->
         int i = Ok z ->
         (forall kv, In kv after -> int (fst kv) <> Ok z) ->
         iget [(1, true); (2, false)]%Z z
         = Some (checked Sample.last_box_checked ("c" ++ i)))
  /\ NoDup (visible [(1, true); (2, false)]%Z)
  /\ forall z, In z (visible [(1, true); (2, false)]%Z)
               <-> iget [(1, true); (2, false)]%Z z = Some true.
Proof.
  apply (show_clusters_toggles_once
           [("1", "one"); ("2", "two"); (" 01 ", "one again")]
           Sample.last_box_checked
           [st_checkbox "one" "c1"; st_checkbox "two" "c2";
            st_checkbox "one again" "c 01 "]
           [(1, true); (2, false)]%Z).
  reflexivity.
Defined.

(** ** The choices of the side bar *)

Lemma insert_In :
  forall (x a : string) (l : list string), In x (insert a l) <-> x = a \/ In x l.
Proof.
  intros x a l; induction l as [|b l IH]; cbn [insert].
  - simpl; intuition.
  - destruct (String.leb a b); cbn [In]; [intuition|rewrite IH; intuition].
Qed.

Lemma sorted_In : forall (x : string) (l : list string), In x (sorted l) <-> In x l.
Proof.
  intros x l; induction l as [|a l IH]; [reflexivity|].
  unfold sorted in *; cbn [fold_right In]; rewrite insert_In, IH; intuition.
Qed.

Lemma bind_radio :
  forall (B : Type) (label : string) (options : list string)
         (k : option string -> App B) (s : Session),
    Streamlit.bind (radio label options) k s
    = (st_radio label options :: fst (k (choose options (picked_method s)) s),
       snd (k (choose options (picked_method s)) s)).
Proof.
  intros; unfold Streamlit.bind, radio.
  destruct (k (choose options (picked_method s)) s); reflexivity.
Qed.

Lemma bind_selectbox :
  forall (B : Type) (label first : string) (rest : list string)
         (picked : Session -> string) (k : string -> App B) (s : Session),
    Streamlit.bind (selectbox label first rest picked) k s
    = (st_selectbox label (first :: rest)
       :: fst (k (if existsb (String.eqb (picked s)) (first :: rest)
                  then picked s else first) s),
       snd (k (if existsb (String.eqb (picked s)) (first :: rest)
               then picked s else first) s)).
Proof.
  intros; unfold Streamlit.bind, selectbox.
  destruct (k _ s); reflexivity.
Qed.

Lemma bind_outcome :
  forall (A B : Type) (m : App A) (k : A -> App B) (s : Session),
    snd (Streamlit.bind m k s)
    = match snd (m s) with
      | Done a => snd (k a s)
      | Stopped => Stopped
      | Failed e => Failed e
      end.
Proof.
  intros A B m k s; unfold Streamlit.bind.
  destruct (m s) as [shown [a| |e]]; [|reflexivity|reflexivity].
  cbn [snd]; destruct (k a s); reflexivity.
Qed.

(** How the side bar ends. *)
Lemma sidebar_outcome :
  forall (data : Document) (s : Session),
    snd (sidebar data s)
    = match embeddings data, countries data, cluster_labels data with
      | None, _, _ => Failed (KeyError "embeddings")
      | Some _, None, _ => Failed (KeyError "countries")
      | Some _, Some _, None => Failed (KeyError "cluster_labels")
      | Some em, Some co, Some lb =>
          match snd (show_clusters lb [] s) with
          | Done show =>
              Done {| methods := keys em;
                      method := choose (keys em) (picked_method s);
                      color_by :=
                        if existsb (String.eqb (picked_color s))
                                   ("Cluster" :: keys (or_empty (indicators data)))
                        then picked_color s else "Cluster";
                      selected_country :=
                        if existsb (String.eqb (picked_country s)) ("" :: sorted co)
                        then picked_country s else "";
                      shown := show |}
          | Stopped => Stopped
          | Failed e => Failed e
          end
      end.
Proof.
  intros data s; unfold sidebar. rewrite bind_say; cbn [snd].
  destruct (embeddings data) as [em|]; [|reflexivity]; cbn [required].
  rewrite bind_lift_ok, bind_radio; cbn [snd].
  rewrite bind_say; cbn [snd]. rewrite bind_selectbox; cbn [snd].
  rewrite bind_say; cbn [snd].
  destruct (countries data) as [co|]; [|reflexivity]; cbn [required].
  rewrite bind_lift_ok, bind_selectbox; cbn [snd].
  rewrite bind_say; cbn [snd]. rewrite bind_say; cbn [snd].
  destruct (cluster_labels data) as [lb|]; [|reflexivity]; cbn [required].
  rewrite bind_lift_ok, bind_outcome.
  destruct (snd (show_clusters lb [] s)) as [show| |e]; [|reflexivity|reflexivity].
  rewrite bind_say; cbn [snd]. rewrite bind_lift_ok, bind_say; reflexivity.
Qed.

Lemma choose_none :
  forall (options : list string) (picked : string),
    choose options picked = None <-> options = [].
Proof.
  intros options picked; unfold choose.
  destruct (existsb (String.eqb picked) options) eqn:E.
  - split; [discriminate|intros ->; discriminate E].
  - destruct options; simpl; split; congruence.
Qed.

Lemma choose_some :
  forall (options : list string) (picked m : string),
    choose options picked = Some m -> In m options.
Proof.
  intros options picked m; unfold choose.
  destruct (existsb (String.eqb picked) options) eqn:E.
  - intros H; injection H as <-. apply existsb_exists in E.
    destruct E as [x [Hx Heq]]; apply String.eqb_eq in Heq; subst; exact Hx.
  - destruct options; simpl; [discriminate|intros H; injection H as <-; left; reflexivity].
Qed.

Lemma picked_or_first :
  forall (picked first : string) (rest : list string),
    let value := if existsb (String.eqb picked) (first :: rest) then picked else first in
    value = first \/ In value rest.
Proof.
  intros picked first rest; cbn zeta.
  destruct (existsb (String.eqb picked) (first :: rest)) eqn:E; [|left; reflexivity].
  apply existsb_exists in E; destruct E as [x [[Hx|Hx] Heq]];
    apply String.eqb_eq in Heq; subst; [left; reflexivity|right; exact Hx].
Qed.

(** X9: what the side bar hands to the page is always one of the options
    of its widgets, whatever the user picked.  The method is a key of
    [embeddings], and there is none only when [embeddings] is empty; the
    colour is Cluster or the name of an indicator; the selected country is
    the empty choice or a country of the document. *)
Theorem sidebar_choices_are_options :
  forall (data : Document) (s : Session) (shown : list event) (c : Controls),
    sidebar data s = (shown, Done c) ->
    exists em co,
      embeddings data = Some em
      /\ countries data = Some co
      /\ methods c = keys em
      /\ (method c = None <-> em = [])
      /\ (forall m, method c = Some m -> In m (keys em))
      /\ (color_by c = "Cluster"
          \/ In (color_by c) (keys (or_empty (indicators data))))
      /\ (selected_country c = "" \/ In (selected_country c) co).
Proof.
  intros data s shown c Hrun.
  pose proof (sidebar_outcome data s) as Ho; rewrite Hrun in Ho; cbn [snd] in Ho.
  destruct (embeddings data) as [em|]; [|discriminate].
  destruct (countries data) as [co|]; [|discriminate].
  destruct (cluster_labels data) as [lb|]; [|discriminate].
  destruct (snd (show_clusters lb [] s)) as [show| |e]; try discriminate.
  injection Ho as ->; cbn [methods method color_by selected_country].
  exists em, co. split; [reflexivity|]. split; [reflexivity|]. split; [reflexivity|].
  split; [|split; [|split]].
  - rewrite choose_none; unfold keys; split; [|intros ->; reflexivity].
    destruct em; [reflexivity|discriminate].
  - intros m; apply choose_some.
  - apply picked_or_first.
  - destruct (picked_or_first (picked_country s) "" (sorted co)) as [H|H];
      [left; exact H|right; apply sorted_In; exact H].
Qed.

Lemma sidebar_choices_are_options_witness :
  exists em co,
    embeddings Sample.three_countries = Some em
    /\ countries Sample.three_countries = Some co
    /\ methods Sample.chad_controls = keys em
    /\ (method Sample.chad_controls = None <-> em = [])
    /\ (forall m, method Sample.chad_controls = Some m -> In m (keys em))
    /\ (color_by Sample.chad_controls = "Cluster"
        \/ In (color_by Sample.chad_controls)
              (keys (or_empty (indicators Sample.three_countries))))
    /\ (selected_country Sample.chad_controls = ""
        \/ In (selected_country Sample.chad_controls) co).
Proof.
  apply (sidebar_choices_are_options Sample.three_countries Sample.chad_hidden
           (fst (sidebar Sample.three_countries Sample.chad_hidden))
           Sample.chad_controls).
  vm_compute; reflexivity.
Defined.

(** ** The detail of a country that can be selected *)




(** ** The marker, in general *)

Lemma keep_is_filter :
  forall (name : string) (country col : list cell),
    keep (eq_str country name) col = cells_of_country name country col.
Proof.
  intros name country; unfold cells_of_country.
  induction country as [|c country IH]; intros col; [reflexivity|].
  destruct col as [|x col]; [reflexivity|].
  cbn [eq_str map keep combine filter fst]; fold (eq_str country name).
  change (match c with CStr s' => String.eqb s' name | _ => false end)
    with (names_country name c).
  destruct (names_country name c); cbn [map snd]; rewrite IH; reflexivity.
Qed.

Lemma keep_seq_positive :
  forall (m : list bool) (a : nat),
    (0 <? List.length (keep m (seq a (List.length m))))%nat = existsb (fun b => b) m.
Proof.
  intros m; induction m as [|b m IH]; intros a; [reflexivity|].
  cbn [List.length seq keep existsb]; destruct b; [reflexivity|apply IH].
Qed.

(** X11: the marker of the selected country, in any table that has the
    columns.  [highlight] never fails.  With no selection, or a name that no
    row of the table carries, the figure stays as it is.  Otherwise it gets
    one more trace, labelled with the name once, whose points are the
    coordinates of every row of that name. *)
Theorem highlight_marks_every_row_of_the_name :
  forall (t : DataFrame) (name x_col y_col : string) (fig : Figure)
         (country xs ys : list cell),
    well_formed t = true ->
    get (columns t) "Country" = Some country ->
    get (columns t) x_col = Some xs ->
    get (columns t) y_col = Some ys ->
    exists fig',
      highlight t name x_col y_col fig = Ok fig'
      /\ (name = "" \/ existsb (names_country name) country = false -> fig' = fig)
      /\ (name <> "" -> existsb (names_country name) country = true ->
          fig' = add_trace fig {| sc_x := cells_of_country name country xs;
                                  sc_y := cells_of_country name country ys;
                                  sc_text := [name] |}).
Proof.
  intros t name x_col y_col fig country xs ys Hwf Hco Hxs Hys.
  pose proof (well_formed_column t _ _ Hwf Hco) as Hlen.
  assert (Hex : existsb (fun b => b) (eq_str country name)
                = existsb (names_country name) country).
  { unfold eq_str; clear; induction country as [|c country IH]; [reflexivity|].
    cbn [map existsb]; rewrite IH; reflexivity. }
  assert (Hpos : (0 <? nrows (select t (eq_str country name)))%nat
                 = existsb (names_country name) country).
  { unfold select; cbn [nrows]. rewrite <- Hex, <- Hlen.
    replace (List.length country) with (List.length (eq_str country name))
      by (unfold eq_str; apply length_map).
    apply keep_seq_positive. }
  unfold highlight. destruct (String.eqb_spec name "") as [->|Hname]; cbn [negb].
  - exists fig; split; [reflexivity|]; split; [reflexivity|intros H; contradiction].
  - unfold getcol at 1, getitem; rewrite Hco; cbn [Py.bind]; rewrite Hpos.
    destruct (existsb (names_country name) country).
    + unfold getcol, getitem, select; cbn [columns].
      rewrite !(get_map_column (keep (eq_str country name))), Hxs, Hys.
      cbn [option_map Py.bind]. rewrite !keep_is_filter.
      eexists; split; [reflexivity|]; split; [intros [H|H]; [contradiction|discriminate]|].
      reflexivity.
    + exists fig; split; [reflexivity|]; split; [reflexivity|discriminate].
Qed.

Lemma highlight_marks_every_row_of_the_name_witness :
  exists fig',
    highlight Sample.table_norway_twice "Norway" "PCA_x" "PCA_y" Sample.bare_figure
    = Ok fig'
    /\ ("Norway" = ""
        \/ existsb (names_country "Norway") [CStr "Norway"; CStr "Chad"; CStr "Norway"]
           = false -> fig' = Sample.bare_figure)
    /\ fig' = add_trace Sample.bare_figure
                {| sc_x := [CFloat (Sample.of_int 1); CFloat (Sample.of_int 3)];
                   sc_y := [CFloat (Sample.of_int 4); CFloat (Sample.of_int 6)];
                   sc_text := ["Norway"] |}.
Proof.
  destruct (highlight_marks_every_row_of_the_name Sample.table_norway_twice
              "Norway" "PCA_x" "PCA_y" Sample.bare_figure
              [CStr "Norway"; CStr "Chad"; CStr "Norway"]
              [CFloat (Sample.of_int 1); CFloat (Sample.of_int 2); CFloat (Sample.of_int 3)]
              [CFloat (Sample.of_int 4); CFloat (Sample.of_int 5); CFloat (Sample.of_int 6)]
              eq_refl eq_refl eq_refl eq_refl)
    as [fig' [Hrun [Hsame Hmark]]].
  exists fig'; split; [exact Hrun|]; split; [exact Hsame|].
  apply Hmark; [discriminate|reflexivity].
Defined.

(** ** A cluster without a label *)





(** ** The counts on the cards *)

Lemma count_eq_in_range :
  forall (cl : list Z),
    (count_eq cl 0 + count_eq cl 1 + count_eq cl 2 + count_eq cl 3)%nat
    = List.length (filter in_card_range cl).
Proof.
  intros cl; induction cl as [|c cl IH]; [reflexivity|].
  cbn [count_eq filter]; unfold in_card_range at 1.
  destruct (Z.eqb_spec c 0) as [->|H0]; [cbn; lia|].
  destruct (Z.eqb_spec c 1) as [->|H1]; [cbn; lia|].
  destruct (Z.eqb_spec c 2) as [->|H2]; [cbn; lia|].
  destruct (Z.eqb_spec c 3) as [->|H3]; [cbn; lia|].
  destruct ((0 <=? c)%Z && (c <? 4)%Z) eqn:E; [|cbn; lia].
  apply andb_true_iff in E; destruct E as [Ea Eb].
  apply Z.leb_le in Ea; apply Z.ltb_lt in Eb; lia.
Qed.

(** X13: when the document names the clusters 0 to 3, the four summaries
    exist and their counts add up to the number of countries whose cluster
    id is one of 0 to 3; a country of any other cluster is counted on no
    card. *)
Theorem cluster_counts_add_up :
  forall (data : Document) (cl : list Z),
    names_four_clusters data = true ->
    clusters data = Some cl ->
    exists s0 s1 s2 s3,
      cluster_summary data 0 = Ok s0
      /\ cluster_summary data 1 = Ok s1
      /\ cluster_summary data 2 = Ok s2
      /\ cluster_summary data 3 = Ok s3
      /\ (count s0 + count s1 + count s2 + count s3)%nat
         = List.length (filter in_card_range cl)
      /\ (forallb in_card_range cl = true ->
          (count s0 + count s1 + count s2 + count s3)%nat = List.length cl).
Proof.
  intros data cl Hnames Hcl.
  assert (Hsum : forall cid, In cid (range 4) ->
             exists sm, cluster_summary data cid = Ok sm /\ count sm = count_eq cl cid).
  { intros cid Hin. unfold names_four_clusters in Hnames; unfold cluster_summary.
    destruct (cluster_labels data) as [lb|]; [|discriminate].
    rewrite Hcl in *; rewrite forallb_forall in Hnames; specialize (Hnames cid Hin).
    cbn [required Py.bind]; unfold getitem.
    destruct (get lb (str cid)); [|discriminate]. cbn [Py.bind].
    destruct (proj1 (cluster_color_range cid) Hin) as [c [-> _]].
    eexists; split; reflexivity. }
  destruct (Hsum 0%Z) as [s0 [H0 C0]]; [simpl; tauto|].
  destruct (Hsum 1%Z) as [s1 [H1 C1]]; [simpl; tauto|].
  destruct (Hsum 2%Z) as [s2 [H2 C2]]; [simpl; tauto|].
  destruct (Hsum 3%Z) as [s3 [H3 C3]]; [simpl; tauto|].
  exists s0, s1, s2, s3; repeat (split; [assumption|]).
  rewrite C0, C1, C2, C3, count_eq_in_range; split; [reflexivity|].
  intros Hall; f_equal. clear - Hall.
  induction cl as [|c cl IH]; [reflexivity|].
  cbn [forallb filter] in *; apply andb_true_iff in Hall; destruct Hall as [Hc Hall].
  rewrite Hc, IH; trivial.
Qed.

Lemma cluster_counts_add_up_witness :
  exists s0 s1 s2 s3,
    cluster_summary Sample.six_clusters 0 = Ok s0
    /\ cluster_summary Sample.six_clusters 1 = Ok s1
    /\ cluster_summary Sample.six_clusters 2 = Ok s2
    /\ cluster_summary Sample.six_clusters 3 = Ok s3
    /\ (count s0 + count s1 + count s2 + count s3)%nat
       = List.length (filter in_card_range [0; 1; 2; 3; 4; 5]%Z)
    /\ (forallb in_card_range [0; 1; 2; 3; 4; 5]%Z = true ->
        (count s0 + count s1 + count s2 + count s3)%nat
        = List.length [0; 1; 2; 3; 4; 5]%Z).
Proof.
  apply (cluster_counts_add_up Sample.six_clusters [0; 1; 2; 3; 4; 5]%Z); reflexivity.
Defined.

(** ** The axis titles *)


(** X14: the titles of the axes carry a share of variance only when the
    method is PCA and the document has [variance_explained]; any other
    method, or a document without that key, gives the plain titles and
    cannot fail.  For PCA both PC1 and PC2 are read: when one is not there
    the page dies with the [KeyError] of the first one missing. *)
Theorem axis_labels_percent_only_for_pca :
  forall (data : Document) (method : option string),
    (method <> Some "PCA" \/ variance_explained data = None ->
     axis_labels data method = Ok (plain_titles method))
    /\ (forall ve, method = Some "PCA" -> variance_explained data = Some ve ->
          axis_labels data method
          = match get ve "PC1", get ve "PC2" with
            | Some pc1, Some pc2 =>
                Ok ({| title_text := "PCA Dim 1"; title_percent := Some pc1 |},
                    {| title_text := "PCA Dim 2"; title_percent := Some pc2 |})
            | None, _ => Raise (KeyError "PC1")
            | Some _, None => Raise (KeyError "PC2")
            end).
Proof.
  intros data method; split.
  - intros H; unfold axis_labels, plain_titles.
    destruct method as [m|]; [|reflexivity].
    destruct (variance_explained data) as [ve|]; [|reflexivity].
    destruct (String.eqb_spec m "PCA") as [->|Hne]; [|reflexivity].
    destruct H as [H|H]; [contradiction H; reflexivity|discriminate H].
  - intros ve -> Hve; unfold axis_labels; rewrite Hve; cbn [String.eqb Ascii.eqb Bool.eqb].
    unfold getitem.
    destruct (get ve "PC1"); [|reflexivity].
    destruct (get ve "PC2"); reflexivity.
Qed.

Lemma axis_labels_percent_only_for_pca_witness :
  axis_labels Sample.variance_without_pc2 (Some "t-SNE") = Ok (plain_titles (Some "t-SNE"))
  /\ axis_labels Sample.variance_without_pc2 (Some "PCA") = Raise (KeyError "PC2").
Proof.
  split.
  - apply (proj1 (axis_labels_percent_only_for_pca Sample.variance_without_pc2
                    (Some "t-SNE"))).
    left; discriminate.
  - exact (proj2 (axis_labels_percent_only_for_pca Sample.variance_without_pc2
                    (Some "PCA"))
             [("PC1", Sample.of_int 40)] eq_refl eq_refl).
Defined.

(** ** The comparison of the methods *)


Lemma for_in_run :
  forall (A : Type) (l : list A) (body : A -> App unit) (s : Session)
         (shown : A -> list event),
    (forall a, In a l -> body a s = (shown a, Done tt)) ->
    for_in l body s = (flat_map shown l, Done tt).
Proof.
  intros A l body s shown; induction l as [|a l IH]; intros H; cbn [for_in flat_map].
  - reflexivity.
  - rewrite (bind_done _ _ _ _ s _ tt (H a (or_introl eq_refl))).
    rewrite IH; [reflexivity|intros a' Ha'; apply H; right; exact Ha'].
Qed.

Lemma df_columns :
  forall (data : Document) (t : DataFrame),
    df data = Ok t ->
    (forall k, In k ["Country"; "Cluster"; "Cluster_Name"] -> has_column t k = true)
    /\ (forall m, In m (keys (or_empty (embeddings data))) ->
                  has_column t (m ++ "_x") = true /\ has_column t (m ++ "_y") = true)
    /\ (forall ind, In ind (keys (or_empty (indicators data))) ->
                    has_column t ind = true).
Proof.
  intros data t H; unfold df in H.
  destruct (new_frame data) as [t0|] eqn:H0; [|discriminate]; cbn [Py.bind] in H.
  destruct (embeddings data) as [em|]; [|discriminate]; cbn [required Py.bind] in H.
  destruct (add_embeddings em (keys em) t0) as [t1|] eqn:H1; [|discriminate].
  cbn [Py.bind] in H.
  destruct (new_frame_shape _ _ H0) as [Hwf0 Hbase].
  destruct (add_embeddings_keeps_shape _ _ _ _ H1 Hwf0) as [Hwf1 [Hem Hk1]].
  destruct (add_indicators_keeps_shape _ _ _ H Hwf1) as [Hwf [Hind Hk]].
  split; [intros k Hin; apply Hk, Hk1, Hbase, Hin|].
  split; [|exact Hind].
  intros m Hm; destruct (Hem m Hm); split; apply Hk; assumption.
Qed.

Lemma select_has_column :
  forall (t : DataFrame) (m : list bool) (k : string),
    has_column (select t m) k = has_column t k.
Proof.
  intros t m k; unfold has_column, select; cbn [columns].
  rewrite (get_map_column (keep m)); destruct (get (columns t) k); reflexivity.
Qed.

Lemma df_filtered_columns :
  forall (t filtered : DataFrame) (shown : list Z) (k : string),
    df_filtered t shown = Ok filtered ->
    has_column filtered k = has_column t k.
Proof.
  intros t filtered shown k H; unfold df_filtered in H.
  destruct (mask t shown) as [m|]; [|discriminate].
  injection H as <-; apply select_has_column.
Qed.


Lemma method_comparison_run :
  forall (filtered : DataFrame) (methods : list string) (s : Session),
    methods <> [] ->
    has_column filtered "Cluster" = true ->
    has_column filtered "Country" = true ->
    (forall m, In m methods ->
               has_column filtered (m ++ "_x") = true
               /\ has_column filtered (m ++ "_y") = true) ->
    method_comparison filtered methods s
    = (st_markdown "---" :: st_markdown "### 🔬 Method Comparison"
       :: flat_map (fun m => [st_plotly_chart (small_chart filtered m);
                              st_caption (get_default descriptions m "")]) methods,
       Done tt).
Proof.
  intros filtered methods s Hne Hcl Hco Hcols.
  unfold method_comparison; rewrite bind_say, bind_say; cbn [fst snd].
  assert (Hloop : forall k : string -> App unit,
             match methods with
             | [] => lift (Raise StreamlitAPIException)
             | _ :: _ => for_in methods k
             end = for_in methods k)
    by (intros k; destruct methods; [contradiction Hne; reflexivity|reflexivity]).
  rewrite Hloop.
  rewrite (for_in_run string methods _ s
             (fun m => [st_plotly_chart (small_chart filtered m);
                        st_caption (get_default descriptions m "")])); [reflexivity|].
  intros m Hm; destruct (Hcols m Hm) as [Hx Hy].
  unfold scatter; cbn [forallb]; rewrite Hx, Hy, Hcl, Hco; cbn [andb].
  rewrite bind_lift_ok, bind_say; reflexivity.
Qed.

(** X15: under the main plot every projection of the document gets its
    own small chart, in the order of the document, drawn from the filtered
    table with the columns of that projection and the cluster id as colour,
    and under each chart the description of the method, or nothing for a
    method the script does not know.  This holds for every table the
    script builds and every state of the filter. *)
Theorem method_comparison_one_chart_per_method :
  forall (data : Document) (t filtered : DataFrame) (shown : list Z)
         (em : dict Embedding) (s : Session),
    df data = Ok t ->
    df_filtered t shown = Ok filtered ->
    embeddings data = Some em ->
    em <> [] ->
    snd (method_comparison filtered (keys em) s) = Done tt
    /\ charts (fst (method_comparison filtered (keys em) s))
       = map (small_chart filtered) (keys em)
    /\ captions (fst (method_comparison filtered (keys em) s))
       = map (fun m => get_default descriptions m "") (keys em).
Proof.
  intros data t filtered shown em s Hdf Hfilt Hem Hne.
  destruct (df_columns data t Hdf) as [Hbase [Hproj _]].
  rewrite Hem in Hproj; cbn [or_empty] in Hproj.
  rewrite method_comparison_run.
  - cbn [fst snd]; split; [reflexivity|].
    cbn [charts captions flat_map app]. clear Hproj.
    split; induction (keys em) as [|m l IH]; cbn [flat_map map app];
      try reflexivity; f_equal; exact IH.
  - destruct em; [contradiction Hne; reflexivity|discriminate].
  - rewrite (df_filtered_columns t filtered shown _ Hfilt); apply Hbase; simpl; tauto.
  - rewrite (df_filtered_columns t filtered shown _ Hfilt); apply Hbase; simpl; tauto.
  - intros m Hm; rewrite !(df_filtered_columns t filtered shown _ Hfilt).
    apply Hproj; exact Hm.
Qed.

Lemma method_comparison_one_chart_per_method_witness :
  snd (method_comparison Sample.two_rows_two_methods ["PCA"; "MDS"]
         Sample.everything_shown) = Done tt
  /\ charts (fst (method_comparison Sample.two_rows_two_methods ["PCA"; "MDS"]
                    Sample.everything_shown))
     = map (small_chart Sample.two_rows_two_methods) ["PCA"; "MDS"]
  /\ captions (fst (method_comparison Sample.two_rows_two_methods ["PCA"; "MDS"]
                      Sample.everything_shown))
     = map (fun m => get_default descriptions m "") ["PCA"; "MDS"].
Proof.
  apply (method_comparison_one_chart_per_method Sample.two_methods
           Sample.table_two_methods Sample.two_rows_two_methods [0; 2]%Z
           [("PCA", Sample.pca); ("MDS", Sample.pca)] Sample.everything_shown);
    try reflexivity.
  discriminate.
Defined.

(** ** The page from top to bottom *)























